(** * InTrack API: the approval workflow of [main.py]

    A shallow embedding of the request handlers of [src/main.py] (FastAPI over
    a MongoDB database) and the proofs of the properties its specification
    states about them.

    - MongoDB collections are lists of documents in natural (insertion)
      order; [find_one] returns the first match, [update_one] rewrites the
      first match, [insert_one] refuses a duplicate [_id].
    - Handlers run in a state-and-exception monad over a [World]: the
      database together with the three sources of values the handlers read
      from their environment (the clock behind [_now()], [uuid4()], and the
      ObjectId generator of the driver).  A raised exception keeps the world
      reached so far, as a Python exception does.
    - Documents are records with the fields their only writers give them. *)

From Stdlib Require Import List String Ascii NArith ZArith Bool Lia Sorted.
From Stdlib Require Import Floats.PrimFloat.
Import ListNotations.

Local Open Scope string_scope.
Local Open Scope list_scope.

(** ** Python strings *)

Module Str.

(** [c.lower()] on an ASCII character; other bytes are left as they are. *)
Definition lower_ascii (c : ascii) : ascii :=
  let n := N_of_ascii c in
  if (65 <=? n)%N && (n <=? 90)%N then ascii_of_N (n + 32) else c.

(** [s.lower()] *)
Fixpoint lower (s : string) : string :=
  match s with
  | EmptyString => EmptyString
  | String c s' => String (lower_ascii c) (lower s')
  end.

(** [s.startswith(p)] *)
Definition startswith (s p : string) : bool := String.prefix p s.

(** [s.split(" ", 1)]: cut at the first space, if there is one. *)
Fixpoint split_space_1 (s : string) : list string :=
  match s with
  | EmptyString => [EmptyString]
  | String c s' =>
      if Ascii.eqb c " "%char then [EmptyString; s']
      else match split_space_1 s' with
           | hd :: tl => String c hd :: tl
           | [] => [String c EmptyString]
           end
  end.

(** [x in xs] for a tuple or set of strings *)
Definition mem (x : string) (xs : list string) : bool :=
  existsb (String.eqb x) xs.

End Str.

(** ** bson.ObjectId

    A 12-byte value.  [ObjectId(s)] accepts the 24 hexadecimal digits of its
    text form and raises [InvalidId] on a text of another length;
    [str(oid)] prints the 24 lower-case digits.  Of the texts of 24
    characters that are not 24 hexadecimal digits, bson turns most down as
    well, but takes one with white space between its bytes for a shorter
    value that is the [_id] of no document; [parse_ObjectId] has no value
    for either kind, and nothing below is stated of them beyond that no
    write happens. *)

Definition ObjectId_t : Type := N.
Bind Scope N_scope with ObjectId_t.

Definition hex_value (c : ascii) : option N :=
  let n := N_of_ascii c in
  if (48 <=? n)%N && (n <=? 57)%N then Some (n - 48)%N
  else if (97 <=? n)%N && (n <=? 102)%N then Some (n - 87)%N
  else if (65 <=? n)%N && (n <=? 70)%N then Some (n - 55)%N
  else None.

Fixpoint of_hex (s : string) (acc : N) : option N :=
  match s with
  | EmptyString => Some acc
  | String c s' =>
      match hex_value c with
      | Some d => of_hex s' (16 * acc + d)%N
      | None => None
      end
  end.

Definition hex_digit (d : N) : ascii :=
  if (d <? 10)%N then ascii_of_N (48 + d) else ascii_of_N (87 + d).

Fixpoint to_hex (width : nat) (n : N) : string :=
  match width with
  | O => EmptyString
  | S w => to_hex w (n / 16)%N ++ String (hex_digit (n mod 16)%N) EmptyString
  end.

Definition parse_ObjectId (s : string) : option ObjectId_t :=
  if Nat.eqb (String.length s) 24 then of_hex s 0%N else None.

(** [str(oid)] *)
Definition str_ObjectId (o : ObjectId_t) : string := to_hex 24 o.

(** ** Documents and request bodies *)

(** [datetime.now(timezone.utc)]: an instant, in microseconds since the
    epoch.  (A stored datetime keeps its milliseconds only; no statement
    below is about the digits after them.) *)
Definition datetime : Type := Z.
Bind Scope Z_scope with datetime.

Module Approval.
(** The [approval_entry] dict of [approve_expense]. *)
Record t : Type := mk
  { by_ : string; role : string; action : string;
    note : option string; at_ : datetime }.
End Approval.

Module User.
(** A document of the [user] collection, as [register] writes it. *)
Record t : Type := mk
  { _id : ObjectId_t; name : string; email : string; password : string;
    role : string; created_at : datetime; updated_at : datetime;
    status : string }.
End User.

Module Session.
(** A document of the [session] collection, as [login] writes it. *)
Record t : Type := mk
  { _id : ObjectId_t; token : string; user_id : ObjectId_t;
    created_at : datetime }.
End Session.

Module Expense.
(** A document of the [expense] collection, as [create_expense] writes it. *)
Record t : Type := mk
  { _id : ObjectId_t; project_id : string; amount : float;
    currency : string; description : option string; status : string;
    requested_by : string; approvals : list Approval.t;
    created_at : datetime; updated_at : datetime }.
End Expense.

Module Leave.
(** A document of the [leave] collection, as [request_leave] writes it. *)
Record t : Type := mk
  { _id : ObjectId_t; start_date : string; end_date : string;
    reason : option string; status : string; user_id : string;
    created_at : datetime; updated_at : datetime }.
End Leave.

Module ApproveBody.
(** [action] is validated against [^(approve|reject)$] before the handler runs. *)
Record t : Type := mk { action : string; note : option string }.
Definition valid (b : t) : bool :=
  String.eqb (action b) "approve" || String.eqb (action b) "reject".
End ApproveBody.

Module ExpenseIn.
Record t : Type := mk
  { project_id : string; amount : float; currency : string;
    description : option string }.
End ExpenseIn.

Module ExpenseOut.
Record t : Type := mk
  { id : string; project_id : string; amount : float; currency : string;
    description : option string; status : string; requested_by : string;
    approvals : list Approval.t }.
End ExpenseOut.

Module LeaveIn.
Record t : Type := mk
  { start_date : string; end_date : string; reason : option string }.
End LeaveIn.

Module LeaveOut.
Record t : Type := mk
  { id : string; start_date : string; end_date : string;
    reason : option string; status : string; user_id : string }.
End LeaveOut.

Module RegisterBody.
Record t : Type := mk
  { name : string; email : string; password : string; role : string }.
End RegisterBody.

Module LoginBody.
Record t : Type := mk { email : string; password : string }.
End LoginBody.

Module UserOut.
Record t : Type := mk
  { id : string; name : string; email : string; role : string }.
End UserOut.

Module LoginOut.
(** The dict [login] returns: the token and the user it was issued to. *)
Record t : Type := mk { token : string; user : UserOut.t }.
End LoginOut.

Module CurrentUser.
(** The dict [get_current_user] returns. *)
Record t : Type := mk
  { _id : string; name : string; email : string; role : string }.
End CurrentUser.

Definition ALLOWED_ROLES : list string :=
  ["Admin"; "Manager"; "Engineer"; "Accountant"].

(** ** The database and the world *)

Record Database : Type := mkDatabase
  { c_user : list User.t; c_session : list Session.t;
    c_expense : list Expense.t; c_leave : list Leave.t }.

(** A source of values read one after the other: the [n]-th read yields
    [values n]. *)
Record Source (A : Type) : Type := mkSource { drawn : nat; values : nat -> A }.
Arguments mkSource {A}.
Arguments drawn {A}.
Arguments values {A}.

Definition peek {A} (s : Source A) : A := values s (drawn s).
Definition advance {A} (s : Source A) : Source A :=
  mkSource (S (drawn s)) (values s).

Record World : Type := mkWorld
  { db : Database; clock : Source datetime; uuids : Source string;
    oids : Source ObjectId_t }.

Definition set_db (d : Database) (w : World) : World :=
  mkWorld d (clock w) (uuids w) (oids w).

(** ** Exceptions and the handler monad *)

Inductive exn : Type :=
| HTTPException (status_code : nat) (detail : string)
| InvalidId
| DuplicateKeyError
| IndexError
| TypeError.

Inductive outcome (A : Type) : Type :=
| Return (a : A)
| Raise (e : exn).
Arguments Return {A}.
Arguments Raise {A}.

Definition M (A : Type) : Type := World -> World * outcome A.

Definition ret {A} (a : A) : M A := fun w => (w, Return a).

Definition raise {A} (e : exn) : M A := fun w => (w, Raise e).

Definition bind {A B} (m : M A) (k : A -> M B) : M B :=
  fun w =>
    match m w with
    | (w1, Return a) => k a w1
    | (w1, Raise e) => (w1, Raise e)
    end.

Notation "x <- m ;; k" := (bind m (fun x => k))
  (at level 61, m at next level, right associativity).
Notation "m ;;; k" := (bind m (fun _ => k))
  (at level 61, right associativity).

(** [_now()] *)
Definition _now : M datetime :=
  fun w => (mkWorld (db w) (advance (clock w)) (uuids w) (oids w),
            Return (peek (clock w))).

(** [str(uuid4())] *)
Definition uuid4 : M string :=
  fun w => (mkWorld (db w) (clock w) (advance (uuids w)) (oids w),
            Return (peek (uuids w))).

(** [ObjectId(s)] *)
Definition ObjectId (s : string) : M ObjectId_t :=
  match parse_ObjectId s with
  | Some o => ret o
  | None => raise InvalidId
  end.

(** ** MongoDB collections *)

(** [_collection(name)]: where the documents of a collection live in the
    database, and the [_id] of a document. *)
Record Collection (D : Type) : Type := mkCollection
  { docs : Database -> list D;
    store : list D -> Database -> Database;
    doc_id : D -> ObjectId_t }.
Arguments docs {D}.
Arguments store {D}.
Arguments doc_id {D}.

Definition coll_user : Collection User.t :=
  mkCollection User.t c_user
    (fun l d => mkDatabase l (c_session d) (c_expense d) (c_leave d))
    User._id.

Definition coll_session : Collection Session.t :=
  mkCollection Session.t c_session
    (fun l d => mkDatabase (c_user d) l (c_expense d) (c_leave d))
    Session._id.

Definition coll_expense : Collection Expense.t :=
  mkCollection Expense.t c_expense
    (fun l d => mkDatabase (c_user d) (c_session d) l (c_leave d))
    Expense._id.

Definition coll_leave : Collection Leave.t :=
  mkCollection Leave.t c_leave
    (fun l d => mkDatabase (c_user d) (c_session d) (c_expense d) l)
    Leave._id.

(** The query [{"_id": o}] *)
Definition by_id {D} (c : Collection D) (o : ObjectId_t) (d : D) : bool :=
  N.eqb (doc_id c d) o.

(** [find_one(query)]: the first matching document, or [None]. *)
Definition find_one {D} (c : Collection D) (query : D -> bool) : M (option D) :=
  fun w => (w, Return (find query (docs c (db w)))).

(** The documents after an update of the first match. *)
Fixpoint update_first {D} (query : D -> bool) (update : D -> D) (l : list D)
  : list D :=
  match l with
  | [] => []
  | d :: l' =>
      if query d then update d :: l' else d :: update_first query update l'
  end.

(** [update_one(query, update)]: nothing happens when no document matches. *)
Definition update_one {D} (c : Collection D) (query : D -> bool)
    (update : D -> D) : M unit :=
  fun w =>
    (set_db (store c (update_first query update (docs c (db w))) (db w)) w,
     Return tt).

(** [insert_one(doc).inserted_id]: the driver gives the document a new
    [_id]; the server refuses an [_id] the collection already has. *)
Definition insert_one {D} (c : Collection D) (doc : ObjectId_t -> D)
  : M ObjectId_t :=
  fun w =>
    let o := peek (oids w) in
    let w1 := mkWorld (db w) (clock w) (uuids w) (advance (oids w)) in
    if existsb (by_id c o) (docs c (db w))
    then (w1, Raise DuplicateKeyError)
    else (set_db (store c (docs c (db w) ++ [doc o]) (db w)) w1, Return o).

(** The documents after the removal of the first match. *)
Fixpoint remove_first {D} (query : D -> bool) (l : list D) : list D :=
  match l with
  | [] => []
  | d :: l' => if query d then l' else d :: remove_first query l'
  end.

(** [delete_one(query)]: nothing happens when no document matches. *)
Definition delete_one {D} (c : Collection D) (query : D -> bool) : M unit :=
  fun w =>
    (set_db (store c (remove_first query (docs c (db w))) (db w)) w,
     Return tt).

(** ** Auth and RBAC *)

Definition get_current_user (authorization : option string)
  : M CurrentUser.t :=
  match authorization with
  | None => raise (HTTPException 401 "Not authenticated")
  | Some authorization =>
      if String.eqb authorization ""
         || negb (Str.startswith (Str.lower authorization) "bearer ")
      then raise (HTTPException 401 "Not authenticated")
      else
        match nth_error (Str.split_space_1 authorization) 1 with
        | None => raise IndexError
        | Some token =>
            session <- find_one coll_session
                         (fun s => String.eqb (Session.token s) token) ;;
            match session with
            | None => raise (HTTPException 401 "Invalid session")
            | Some session =>
                user <- find_one coll_user
                          (by_id coll_user (Session.user_id session)) ;;
                match user with
                | None => raise (HTTPException 401 "User not found")
                | Some user =>
                    ret (CurrentUser.mk (str_ObjectId (User._id user))
                           (User.name user) (User.email user)
                           (User.role user))
                end
            end
        end
  end.

(** [require_roles] applied to [roles], as a dependency: the current user, if their role
    is one of [roles]. *)
Definition require_roles (roles : list string)
    (authorization : option string) : M CurrentUser.t :=
  user <- get_current_user authorization ;;
  if negb (Str.mem (CurrentUser.role user) roles)
  then raise (HTTPException 403 "Forbidden")
  else ret user.

(** ** Auth endpoints *)

Definition register (body : RegisterBody.t) : M UserOut.t :=
  if negb (Str.mem (RegisterBody.role body) ALLOWED_ROLES)
  then raise (HTTPException 400 "Invalid role")
  else
    existing <- find_one coll_user
                  (fun u => String.eqb (User.email u) (RegisterBody.email body)) ;;
    match existing with
    | Some _ => raise (HTTPException 409 "Email already registered")
    | None =>
        created_at <- _now ;;
        updated_at <- _now ;;
        inserted_id <- insert_one coll_user
          (fun o => User.mk o (RegisterBody.name body) (RegisterBody.email body)
                      (RegisterBody.password body) (RegisterBody.role body)
                      created_at updated_at "active") ;;
        ret (UserOut.mk (str_ObjectId inserted_id) (RegisterBody.name body)
               (RegisterBody.email body) (RegisterBody.role body))
    end.

Definition login (body : LoginBody.t) : M LoginOut.t :=
  user <- find_one coll_user
            (fun u => String.eqb (User.email u) (LoginBody.email body)) ;;
  match user with
  | None => raise (HTTPException 401 "Invalid credentials")
  | Some user =>
      if negb (String.eqb (User.password user) (LoginBody.password body))
      then raise (HTTPException 401 "Invalid credentials")
      else
        token <- uuid4 ;;
        created_at <- _now ;;
        insert_one coll_session
          (fun o => Session.mk o token (User._id user) created_at) ;;;
        ret (LoginOut.mk token
               (UserOut.mk (str_ObjectId (User._id user)) (User.name user)
                  (User.email user) (User.role user)))
  end.

Definition me (user : CurrentUser.t) : M UserOut.t :=
  ret (UserOut.mk (CurrentUser._id user) (CurrentUser.name user)
         (CurrentUser.email user) (CurrentUser.role user)).

(** [GET /auth/me] with its dependency *)
Definition GET_auth_me (authorization : option string) : M UserOut.t :=
  user <- get_current_user authorization ;;
  me user.

Module OkOut.
(** The dict [{"ok": True}] of [logout]. *)
Record t : Type := mk { ok : bool }.
End OkOut.

(** [POST /auth/logout]: it has no dependency and reads the header itself. *)
Definition logout (authorization : option string) : M OkOut.t :=
  match authorization with
  | None => ret (OkOut.mk true)
  | Some authorization =>
      if String.eqb authorization ""
         || negb (Str.startswith (Str.lower authorization) "bearer ")
      then ret (OkOut.mk true)
      else
        match nth_error (Str.split_space_1 authorization) 1 with
        | None => raise IndexError
        | Some token =>
            delete_one coll_session
              (fun s => String.eqb (Session.token s) token) ;;;
            ret (OkOut.mk true)
        end
  end.

(** ** Expenses *)

Definition create_expense (payload : ExpenseIn.t) (user : CurrentUser.t)
  : M ExpenseOut.t :=
  created_at <- _now ;;
  updated_at <- _now ;;
  inserted_id <- insert_one coll_expense
    (fun o => Expense.mk o (ExpenseIn.project_id payload)
                (ExpenseIn.amount payload) (ExpenseIn.currency payload)
                (ExpenseIn.description payload) "pending_manager"
                (CurrentUser._id user) [] created_at updated_at) ;;
  ret (ExpenseOut.mk (str_ObjectId inserted_id) (ExpenseIn.project_id payload)
         (ExpenseIn.amount payload) (ExpenseIn.currency payload)
         (ExpenseIn.description payload) "pending_manager"
         (CurrentUser._id user) []).

(** [POST /expenses] with its dependency *)
Definition POST_expenses (authorization : option string)
    (payload : ExpenseIn.t) : M ExpenseOut.t :=
  user <- require_roles ["Engineer"; "Manager"; "Admin"] authorization ;;
  create_expense payload user.

(** The [$set] and [$push] of [approve_expense] on one document. *)
Definition set_status_push_approval (new_status : string)
    (updated_at : datetime) (approval_entry : Approval.t) (d : Expense.t)
  : Expense.t :=
  Expense.mk (Expense._id d) (Expense.project_id d) (Expense.amount d)
    (Expense.currency d) (Expense.description d) new_status
    (Expense.requested_by d) (Expense.approvals d ++ [approval_entry])
    (Expense.created_at d) updated_at.

(** [ObjectId(expense_id)] is written three times in the source; it has no
    effect and always the same value, so it is evaluated once here. *)
Definition approve_expense (expense_id : string) (body : ApproveBody.t)
    (user : CurrentUser.t) : M ExpenseOut.t :=
  oid <- ObjectId expense_id ;;
  exp <- find_one coll_expense (by_id coll_expense oid) ;;
  match exp with
  | None => raise (HTTPException 404 "Expense not found")
  | Some exp =>
      let role := CurrentUser.role user in
      let status := Expense.status exp in
      if String.eqb status "pending_manager"
         && negb (Str.mem role ["Manager"; "Admin"])
      then raise (HTTPException 403 "Manager approval required")
      else
      if String.eqb status "pending_accountant"
         && negb (Str.mem role ["Accountant"; "Admin"])
      then raise (HTTPException 403 "Accountant approval required")
      else
        let new_status :=
          if String.eqb (ApproveBody.action body) "reject" then "rejected"
          else if String.eqb status "pending_manager" then "pending_accountant"
          else if String.eqb status "pending_accountant" then "approved"
          else status in
        at_ <- _now ;;
        let approval_entry :=
          Approval.mk (CurrentUser._id user) role (ApproveBody.action body)
            (ApproveBody.note body) at_ in
        updated_at <- _now ;;
        update_one coll_expense (by_id coll_expense oid)
          (set_status_push_approval new_status updated_at approval_entry) ;;;
        exp <- find_one coll_expense (by_id coll_expense oid) ;;
        match exp with
        | None => raise TypeError
        | Some exp =>
            ret (ExpenseOut.mk (str_ObjectId (Expense._id exp))
                   (Expense.project_id exp) (Expense.amount exp)
                   (Expense.currency exp) (Expense.description exp)
                   (Expense.status exp) (Expense.requested_by exp)
                   (Expense.approvals exp))
        end
  end.

(** [POST /expenses/{expense_id}/approve] with its dependency *)
Definition POST_expenses_approve (authorization : option string)
    (expense_id : string) (body : ApproveBody.t) : M ExpenseOut.t :=
  user <- get_current_user authorization ;;
  approve_expense expense_id body user.

(** ** Leaves *)

Definition request_leave (payload : LeaveIn.t) (user : CurrentUser.t)
  : M LeaveOut.t :=
  created_at <- _now ;;
  updated_at <- _now ;;
  inserted_id <- insert_one coll_leave
    (fun o => Leave.mk o (LeaveIn.start_date payload)
                (LeaveIn.end_date payload) (LeaveIn.reason payload)
                "pending_manager" (CurrentUser._id user)
                created_at updated_at) ;;
  ret (LeaveOut.mk (str_ObjectId inserted_id) (LeaveIn.start_date payload)
         (LeaveIn.end_date payload) (LeaveIn.reason payload)
         "pending_manager" (CurrentUser._id user)).

(** [POST /leaves] with its dependency *)
Definition POST_leaves (authorization : option string) (payload : LeaveIn.t)
  : M LeaveOut.t :=
  user <- require_roles ["Engineer"; "Manager"; "Admin"; "Accountant"]
            authorization ;;
  request_leave payload user.

(** The [$set] of [approve_leave] on one document. *)
Definition set_leave_status (new_status : string) (updated_at : datetime)
    (d : Leave.t) : Leave.t :=
  Leave.mk (Leave._id d) (Leave.start_date d) (Leave.end_date d)
    (Leave.reason d) new_status (Leave.user_id d) (Leave.created_at d)
    updated_at.

Definition approve_leave (leave_id : string) (body : ApproveBody.t)
    (user : CurrentUser.t) : M LeaveOut.t :=
  oid <- ObjectId leave_id ;;
  leave <- find_one coll_leave (by_id coll_leave oid) ;;
  match leave with
  | None => raise (HTTPException 404 "Leave not found")
  | Some _ =>
      let new_status :=
        if String.eqb (ApproveBody.action body) "approve" then "approved"
        else "rejected" in
      updated_at <- _now ;;
      update_one coll_leave (by_id coll_leave oid)
        (set_leave_status new_status updated_at) ;;;
      leave <- find_one coll_leave (by_id coll_leave oid) ;;
      match leave with
      | None => raise TypeError
      | Some leave =>
          ret (LeaveOut.mk (str_ObjectId (Leave._id leave))
                 (Leave.start_date leave) (Leave.end_date leave)
                 (Leave.reason leave) (Leave.status leave)
                 (Leave.user_id leave))
      end
  end.

(** [POST /leaves/{leave_id}/approve] with its dependency *)
Definition POST_leaves_approve (authorization : option string)
    (leave_id : string) (body : ApproveBody.t) : M LeaveOut.t :=
  user <- require_roles ["Manager"; "Admin"] authorization ;;
  approve_leave leave_id body user.

(** ** Reading the database *)

(** The expense a well-formed id resolves to, as [find_one] sees it. *)
Definition stored_expense (w : World) (oid : ObjectId_t) : option Expense.t :=
  find (by_id coll_expense oid) (c_expense (db w)).

Definition stored_leave (w : World) (oid : ObjectId_t) : option Leave.t :=
  find (by_id coll_leave oid) (c_leave (db w)).

(** Every Approval entry the database holds: the [approvals] of the
    expenses.  User, session and leave documents have no field for one. *)
Definition audit_entries (d : Database) : list Approval.t :=
  flat_map Expense.approvals (c_expense d).

(** The response built from an expense document. *)
Definition expense_out (exp : Expense.t) : ExpenseOut.t :=
  ExpenseOut.mk (str_ObjectId (Expense._id exp)) (Expense.project_id exp)
    (Expense.amount exp) (Expense.currency exp) (Expense.description exp)
    (Expense.status exp) (Expense.requested_by exp) (Expense.approvals exp).

Definition leave_out (leave : Leave.t) : LeaveOut.t :=
  LeaveOut.mk (str_ObjectId (Leave._id leave)) (Leave.start_date leave)
    (Leave.end_date leave) (Leave.reason leave) (Leave.status leave)
    (Leave.user_id leave).

(** ** What a decision on an expense writes *)

(** The status [approve_expense] writes. *)
Definition new_status_of (status action : string) : string :=
  if String.eqb action "reject" then "rejected"
  else if String.eqb status "pending_manager" then "pending_accountant"
  else if String.eqb status "pending_accountant" then "approved"
  else status.

(** The entry a decision appends, stamped with the first clock reading. *)
Definition entry_of (user : CurrentUser.t) (body : ApproveBody.t)
    (w : World) : Approval.t :=
  Approval.mk (CurrentUser._id user) (CurrentUser.role user)
    (ApproveBody.action body) (ApproveBody.note body) (peek (clock w)).

(** The document a decision leaves behind. *)
Definition decided (exp : Expense.t) (user : CurrentUser.t)
    (body : ApproveBody.t) (w : World) : Expense.t :=
  set_status_push_approval
    (new_status_of (Expense.status exp) (ApproveBody.action body))
    (peek (advance (clock w))) (entry_of user body w) exp.

(** The world a decision leaves behind: the first document with the id is
    rewritten and the clock has been read twice. *)
Definition world_after_decision (oid : ObjectId_t) (exp : Expense.t)
    (user : CurrentUser.t) (body : ApproveBody.t) (w : World) : World :=
  mkWorld
    (store coll_expense
       (update_first (by_id coll_expense oid)
          (fun d => set_status_push_approval
                      (new_status_of (Expense.status exp)
                         (ApproveBody.action body))
                      (peek (advance (clock w))) (entry_of user body w) d)
          (c_expense (db w)))
       (db w))
    (advance (advance (clock w))) (uuids w) (oids w).

(** ** What a decision on a leave writes *)

(** The status [approve_leave] writes. *)
Definition leave_status_of (action : string) : string :=
  if String.eqb action "approve" then "approved" else "rejected".

(** The world a decision on a leave leaves behind: the first document with
    the id is rewritten and the clock has been read once. *)
Definition world_after_leave_decision (oid : ObjectId_t)
    (body : ApproveBody.t) (w : World) : World :=
  mkWorld
    (store coll_leave
       (update_first (by_id coll_leave oid)
          (set_leave_status (leave_status_of (ApproveBody.action body))
             (peek (clock w)))
          (c_leave (db w)))
       (db w))
    (advance (clock w)) (uuids w) (oids w).

(** ** A small database

    Four users, one of each role, each with a session; one expense in each
    status of the workflow; one pending and one approved leave. *)

Definition t0 : datetime := 1700000000000000%Z.

Definition demo_users : list User.t :=
  [ User.mk 1 "Eve" "eve@intrack.io" "engineer-pw" "Engineer" t0 t0 "active";
    User.mk 2 "Max" "max@intrack.io" "manager-pw" "Manager" t0 t0 "active";
    User.mk 3 "Ann" "ann@intrack.io" "accountant-pw" "Accountant" t0 t0 "active";
    User.mk 4 "Ada" "ada@intrack.io" "admin-pw" "Admin" t0 t0 "active" ].

Definition demo_sessions : list Session.t :=
  [ Session.mk 5 "token-eve" 1 t0; Session.mk 6 "token-max" 2 t0;
    Session.mk 7 "token-ann" 3 t0; Session.mk 8 "token-ada" 4 t0 ].

Definition eve : CurrentUser.t :=
  CurrentUser.mk "000000000000000000000001" "Eve" "eve@intrack.io" "Engineer".
Definition max : CurrentUser.t :=
  CurrentUser.mk "000000000000000000000002" "Max" "max@intrack.io" "Manager".
Definition ann : CurrentUser.t :=
  CurrentUser.mk "000000000000000000000003" "Ann" "ann@intrack.io" "Accountant".
Definition ada : CurrentUser.t :=
  CurrentUser.mk "000000000000000000000004" "Ada" "ada@intrack.io" "Admin".

Definition by_max : Approval.t :=
  Approval.mk "000000000000000000000002" "Manager" "approve" None t0.
Definition by_ann : Approval.t :=
  Approval.mk "000000000000000000000003" "Accountant" "approve" None t0.
Definition no_by_max : Approval.t :=
  Approval.mk "000000000000000000000002" "Manager" "reject" (Some "no budget") t0.

Definition demo_expense (oid : ObjectId_t) (status : string)
    (approvals : list Approval.t) : Expense.t :=
  Expense.mk oid "P1" 100.0%float "USD" None status
    "000000000000000000000001" approvals t0 t0.

Definition demo_expenses : list Expense.t :=
  [ demo_expense 16 "pending_manager" [];
    demo_expense 17 "pending_accountant" [by_max];
    demo_expense 18 "approved" [by_max; by_ann];
    demo_expense 19 "rejected" [no_by_max] ].

Definition demo_leaves : list Leave.t :=
  [ Leave.mk 32 "2024-07-01" "2024-07-05" (Some "holiday") "pending_manager"
      "000000000000000000000001" t0 t0;
    Leave.mk 33 "2024-08-01" "2024-08-02" None "approved"
      "000000000000000000000003" t0 t0 ].

(** What the environment will hand out next: clock readings, uuids and
    ObjectIds, each from a list, with a last value repeated after its end. *)
Definition from_list {A} (l : list A) (last : A) : Source A :=
  mkSource 0 (fun n => nth n l last).

Definition demo_world : World :=
  mkWorld (mkDatabase demo_users demo_sessions demo_expenses demo_leaves)
    (from_list [1700000000000001; 1700000000000002; 1700000000000003;
                1700000000000004]%Z 1700000000000005%Z)
    (from_list ["3f0c9a52-7f1e-4c7b-9a55-0d1c2b3a4e5f";
                "9b2d6c1e-2a4f-4e8d-8c3b-6f7a8b9c0d1e"]
       "c4e1f2a3-5b6c-4d7e-8f90-a1b2c3d4e5f6")
    (from_list [256; 257; 258]%N 259%N).

Definition approve_ (note : option string) : ApproveBody.t :=
  ApproveBody.mk "approve" note.
Definition reject_ (note : option string) : ApproveBody.t :=
  ApproveBody.mk "reject" note.

(** ** Readings of the specification that are tested against the handlers *)

(** A decision on the expense [expense_id] keeps its status and appends one
    entry to its approvals. *)
Definition status_kept_entry_appended (w : World) (expense_id : string)
    (body : ApproveBody.t) (user : CurrentUser.t) : Prop :=
  forall oid exp,
    parse_ObjectId expense_id = Some oid ->
    stored_expense w oid = Some exp ->
    exists w' out exp',
      approve_expense expense_id body user w = (w', Return out) /\
      stored_expense w' oid = Some exp' /\
      Expense.status exp' = Expense.status exp /\
      List.length (Expense.approvals exp')
      = S (List.length (Expense.approvals exp)).

(** A [reject] on the expense [expense_id] is accepted, sets the status to
    [rejected] and appends one entry to its approvals. *)
Definition reject_lands (w : World) (expense_id : string)
    (body : ApproveBody.t) (user : CurrentUser.t) : Prop :=
  forall oid exp,
    parse_ObjectId expense_id = Some oid ->
    stored_expense w oid = Some exp ->
    exists w' out exp',
      approve_expense expense_id body user w = (w', Return out) /\
      stored_expense w' oid = Some exp' /\
      Expense.status exp' = "rejected" /\
      List.length (Expense.approvals exp')
      = S (List.length (Expense.approvals exp)).

(** A successful decision on the leave [leave_id] leaves an Approval entry
    of that decision (its actor, role, action and note) in the database. *)
Definition leave_decision_logged (w : World) (leave_id : string)
    (body : ApproveBody.t) (user : CurrentUser.t) : Prop :=
  forall w' out,
    approve_leave leave_id body user w = (w', Return out) ->
    exists e,
      In e (audit_entries (db w')) /\
      Approval.by_ e = CurrentUser._id user /\
      Approval.role e = CurrentUser.role user /\
      Approval.action e = ApproveBody.action body /\
      Approval.note e = ApproveBody.note body.

(** ** What creating an expense and logging in write *)

(** The document [create_expense] inserts. *)
Definition new_expense (payload : ExpenseIn.t) (user : CurrentUser.t)
    (w : World) : Expense.t :=
  Expense.mk (peek (oids w)) (ExpenseIn.project_id payload)
    (ExpenseIn.amount payload) (ExpenseIn.currency payload)
    (ExpenseIn.description payload) "pending_manager" (CurrentUser._id user)
    [] (peek (clock w)) (peek (advance (clock w))).

Definition world_after_create (payload : ExpenseIn.t) (user : CurrentUser.t)
    (w : World) : World :=
  mkWorld
    (store coll_expense (c_expense (db w) ++ [new_expense payload user w])
       (db w))
    (advance (advance (clock w))) (uuids w) (advance (oids w)).

(** The session [login] inserts for [user]. *)
Definition new_session (user : User.t) (w : World) : Session.t :=
  Session.mk (peek (oids w)) (peek (uuids w)) (User._id user)
    (peek (clock w)).

Definition world_after_login (user : User.t) (w : World) : World :=
  mkWorld
    (store coll_session (c_session (db w) ++ [new_session user w]) (db w))
    (advance (clock w)) (advance (uuids w)) (advance (oids w)).

(** The response of [login] and of [/auth/me] for a user document. *)
Definition user_out (user : User.t) : UserOut.t :=
  UserOut.mk (str_ObjectId (User._id user)) (User.name user)
    (User.email user) (User.role user).

(** ** Assumptions on the environment and invariants of the database *)

(** The ObjectId the driver generates next is not yet in the collection. *)
Definition oid_fresh {D} (c : Collection D) (w : World) : Prop :=
  find (by_id c (peek (oids w))) (docs c (db w)) = None.

(** The uuid drawn next is not the token of a stored session. *)
Definition token_fresh (w : World) : Prop :=
  find (fun s => String.eqb (Session.token s) (peek (uuids w)))
    (c_session (db w)) = None.

(** No two users share an [_id] or an email address. *)
Definition users_wf (d : Database) : Prop :=
  NoDup (map User._id (c_user d)) /\ NoDup (map User.email (c_user d)).

(** ** Requests and reachable worlds *)

Inductive request : Type :=
| Register (body : RegisterBody.t)
| Login (body : LoginBody.t)
| Me (authorization : option string)
| CreateExpense (authorization : option string) (payload : ExpenseIn.t)
| ApproveExpense (authorization : option string) (expense_id : string)
    (body : ApproveBody.t)
| RequestLeave (authorization : option string) (payload : LeaveIn.t)
| ApproveLeave (authorization : option string) (leave_id : string)
    (body : ApproveBody.t)
| Logout (authorization : option string).

(** The world after a request has been served, whatever the response. *)
Definition serve (r : request) (w : World) : World :=
  match r with
  | Register body => fst (register body w)
  | Login body => fst (login body w)
  | Me authorization => fst (GET_auth_me authorization w)
  | CreateExpense authorization payload =>
      fst (POST_expenses authorization payload w)
  | ApproveExpense authorization expense_id body =>
      fst (POST_expenses_approve authorization expense_id body w)
  | RequestLeave authorization payload =>
      fst (POST_leaves authorization payload w)
  | ApproveLeave authorization leave_id body =>
      fst (POST_leaves_approve authorization leave_id body w)
  | Logout authorization => fst (logout authorization w)
  end.

(** The worlds the server can be in: it starts on an empty database and
    serves requests one after the other. *)
Inductive reachable : World -> Prop :=
| reachable_start clock uuids oids :
    reachable (mkWorld (mkDatabase [] [] [] []) clock uuids oids)
| reachable_serve r w : reachable w -> reachable (serve r w).

(** A computation that leaves the user collection as it found it. *)
Definition keeps_users {A} (m : M A) : Prop :=
  forall w, c_user (db (fst (m w))) = c_user (db w).

(** ** The scenario of the specification

    An engineer creates an expense of 100.0 USD on project P1; the manager
    approves it, then the accountant, and then the accountant once more. *)

Definition scenario : M (ExpenseOut.t * ExpenseOut.t * ExpenseOut.t
                         * ExpenseOut.t) :=
  let bearer token := Some (String.append "Bearer " token) in
  let approve := ApproveBody.mk "approve" None in
  created <- POST_expenses (bearer "token-eve")
               (ExpenseIn.mk "P1" 100.0%float "USD" None) ;;
  first <- POST_expenses_approve (bearer "token-max")
             (ExpenseOut.id created) approve ;;
  second <- POST_expenses_approve (bearer "token-ann")
              (ExpenseOut.id created) approve ;;
  third <- POST_expenses_approve (bearer "token-ann")
             (ExpenseOut.id created) approve ;;
  ret (created, first, second, third).

(** The status and the number of approvals of a response. *)
Definition summary (out : ExpenseOut.t) : string * nat :=
  (ExpenseOut.status out, List.length (ExpenseOut.approvals out)).

(** ** What registering writes, and an empty server *)

(** The document [register] inserts. *)
Definition new_user (body : RegisterBody.t) (w : World) : User.t :=
  User.mk (peek (oids w)) (RegisterBody.name body) (RegisterBody.email body)
    (RegisterBody.password body) (RegisterBody.role body) (peek (clock w))
    (peek (advance (clock w))) "active".

Definition world_after_register (body : RegisterBody.t) (w : World) : World :=
  mkWorld (store coll_user (c_user (db w) ++ [new_user body w]) (db w))
    (advance (advance (clock w))) (uuids w) (advance (oids w)).

(** The server before its first request, with the environment of the demo
    world. *)
Definition empty_world : World :=
  mkWorld (mkDatabase [] [] [] []) (clock demo_world) (uuids demo_world)
    (oids demo_world).

(** A string without a space. *)
Fixpoint no_space (s : string) : bool :=
  match s with
  | EmptyString => true
  | String c s' => negb (Ascii.eqb c " "%char) && no_space s'
  end.

(** ** What a request can do to a collection *)

(** A computation that leaves the part [f] of the database as it found it. *)
Definition preserves {X A} (f : Database -> X) (m : M A) : Prop :=
  forall w, f (db (fst (m w))) = f (db w).

(** The two role tests of [approve_expense], passed. *)
Definition may_decide (exp : Expense.t) (user : CurrentUser.t) : Prop :=
  (Expense.status exp = "pending_manager" ->
   In (CurrentUser.role user) ["Manager"; "Admin"]) /\
  (Expense.status exp = "pending_accountant" ->
   In (CurrentUser.role user) ["Accountant"; "Admin"]).

(** The expense collection [l'] after one request served in the world [w]:
    as before, or with one new expense at its end, or with the decision of
    a user who passed the role tests written to one expense. *)
Inductive expense_effect (w : World) (l' : list Expense.t) : Prop :=
| effect_none :
    l' = c_expense (db w) -> expense_effect w l'
| effect_created payload user :
    oid_fresh coll_expense w ->
    l' = c_expense (db w) ++ [new_expense payload user w] ->
    expense_effect w l'
| effect_decided oid exp user body :
    stored_expense w oid = Some exp ->
    may_decide exp user ->
    l' = c_expense (db (world_after_decision oid exp user body w)) ->
    expense_effect w l'.

(** The workflow states of an expense. *)
Definition expense_statuses : list string :=
  ["pending_manager"; "pending_accountant"; "approved"; "rejected"].

(** An approval entry with an action other than [reject], by one of [roles]. *)
Definition approved_by (roles : list string) (e : Approval.t) : Prop :=
  Approval.action e <> "reject" /\ In (Approval.role e) roles.

(** The approvals an expense in each status has behind it. *)
Definition log_matches_status (exp : Expense.t) : Prop :=
  match Expense.approvals exp with
  | [] => Expense.status exp = "pending_manager"
  | [e1] =>
      (Expense.status exp = "pending_accountant"
       /\ approved_by ["Manager"; "Admin"] e1)
      \/ Expense.status exp = "rejected"
  | e1 :: e2 :: _ =>
      (Expense.status exp = "approved"
       /\ approved_by ["Manager"; "Admin"] e1
       /\ approved_by ["Accountant"; "Admin"] e2)
      \/ Expense.status exp = "rejected"
  end.

(** The world after a sequence of requests, served in order. *)
Definition serve_all (rs : list request) (w : World) : World :=
  fold_left (fun w r => serve r w) rs w.

(** ** A server that has been used

    From an empty database: three users register and log in, the engineer
    files an expense, the manager and then the accountant approve it. *)

Definition start_world : World :=
  mkWorld (mkDatabase [] [] [] [])
    (from_list (map Z.of_nat (seq 1 40)) 41%Z)
    (from_list ["tok-1"; "tok-2"; "tok-3"; "tok-4"] "tok-5")
    (from_list (map N.of_nat (seq 1 20)) 21%N).

Definition office_requests : list request :=
  [ Register (RegisterBody.mk "Eve" "eve@intrack.io" "engineer-pw" "Engineer");
    Register (RegisterBody.mk "Max" "max@intrack.io" "manager-pw" "Manager");
    Register (RegisterBody.mk "Ann" "ann@intrack.io" "accountant-pw"
                "Accountant");
    Login (LoginBody.mk "eve@intrack.io" "engineer-pw");
    Login (LoginBody.mk "max@intrack.io" "manager-pw");
    Login (LoginBody.mk "ann@intrack.io" "accountant-pw");
    CreateExpense (Some "Bearer tok-1")
      (ExpenseIn.mk "P1" 100.0%float "USD" None);
    ApproveExpense (Some "Bearer tok-2") "000000000000000000000007"
      (approve_ None);
    ApproveExpense (Some "Bearer tok-3") "000000000000000000000007"
      (approve_ (Some "ok")) ].

Definition office : World := serve_all office_requests start_world.

(** ** Projects

    The [project] and [counter] collections live beside the four
    collections above: a [Site] is a world together with them, and the
    project handlers run in the same kind of monad over a site. *)

Module Project.
(** A document of the [project] collection, as [create_project] writes it. *)
Record t : Type := mk
  { _id : ObjectId_t; title : string; client : string; status : string;
    manager_id : option string; engineer_ids : list string; number : Z;
    created_by : string; created_at : datetime; updated_at : datetime }.
End Project.

Module Counter.
(** A document of the [counter] collection: its [_id] is a name. *)
Record t : Type := mk { _id : string; value : Z }.
End Counter.

Module ProjectIn.
Record t : Type := mk
  { title : string; client : string; status : string;
    manager_id : option string; engineer_ids : list string }.
End ProjectIn.

Module ProjectOut.
Record t : Type := mk
  { id : string; number : Z; title : string; client : string;
    status : string; manager_id : option string;
    engineer_ids : list string }.
End ProjectOut.

Record Site : Type := mkSite
  { world : World; c_project : list Project.t; c_counter : list Counter.t }.

(** What a project handler ends with: a value, an exception of the
    handlers above, or the server's refusal to increment a 64-bit integer
    past its largest value. *)
Inductive site_outcome (A : Type) : Type :=
| Done (a : A)
| Failed (e : exn)
| IntegerOverflow.
Arguments Done {A}.
Arguments Failed {A}.
Arguments IntegerOverflow {A}.

Definition SiteM (A : Type) : Type := Site -> Site * site_outcome A.

Definition ret_site {A} (a : A) : SiteM A := fun s => (s, Done a).

Definition raise_site {A} (e : exn) : SiteM A := fun s => (s, Failed e).

Definition bind_site {A B} (m : SiteM A) (k : A -> SiteM B) : SiteM B :=
  fun s =>
    match m s with
    | (s1, Done a) => k a s1
    | (s1, Failed e) => (s1, Failed e)
    | (s1, IntegerOverflow) => (s1, IntegerOverflow)
    end.

Notation "x <~ m ;; k" := (bind_site m (fun x => k))
  (at level 61, m at next level, right associativity).

(** A computation on the world, run on the world of a site. *)
Definition lift {A} (m : M A) : SiteM A :=
  fun s =>
    match m (world s) with
    | (w1, Return a) => (mkSite w1 (c_project s) (c_counter s), Done a)
    | (w1, Raise e) => (mkSite w1 (c_project s) (c_counter s), Failed e)
    end.

Definition int64_max : Z := 9223372036854775807.

(** The query [{"_id": "project_number"}] *)
Definition is_project_number (c : Counter.t) : bool :=
  String.eqb (Counter._id c) "project_number".

(** [find_one_and_update] with [$inc] of [value] by 1, [upsert=True] and the
    document returned after the update; then [int(seq.get("value", 1))]. *)
Definition _next_project_number : SiteM Z :=
  fun s =>
    match find is_project_number (c_counter s) with
    | Some seq =>
        if (Counter.value seq + 1 >? int64_max)%Z
        then (s, IntegerOverflow)
        else
          (mkSite (world s) (c_project s)
             (update_first is_project_number
                (fun c => Counter.mk (Counter._id c) (Counter.value c + 1))
                (c_counter s)),
           Done (Counter.value seq + 1)%Z)
    | None =>
        (mkSite (world s) (c_project s)
           (c_counter s ++ [Counter.mk "project_number" 1]),
         Done 1%Z)
    end.

(** [_collection("project").insert_one(doc).inserted_id] *)
Definition insert_project (doc : ObjectId_t -> Project.t) : SiteM ObjectId_t :=
  fun s =>
    let o := peek (oids (world s)) in
    let w1 := mkWorld (db (world s)) (clock (world s)) (uuids (world s))
                (advance (oids (world s))) in
    if existsb (fun p => N.eqb (Project._id p) o) (c_project s)
    then (mkSite w1 (c_project s) (c_counter s), Failed DuplicateKeyError)
    else (mkSite w1 (c_project s ++ [doc o]) (c_counter s), Done o).

Definition create_project (payload : ProjectIn.t) (user : CurrentUser.t)
  : SiteM ProjectOut.t :=
  number <~ _next_project_number ;;
  created_at <~ lift _now ;;
  updated_at <~ lift _now ;;
  inserted_id <~ insert_project
    (fun o => Project.mk o (ProjectIn.title payload)
                (ProjectIn.client payload) (ProjectIn.status payload)
                (ProjectIn.manager_id payload)
                (ProjectIn.engineer_ids payload) number
                (CurrentUser._id user) created_at updated_at) ;;
  ret_site (ProjectOut.mk (str_ObjectId inserted_id) number
              (ProjectIn.title payload) (ProjectIn.client payload)
              (ProjectIn.status payload) (ProjectIn.manager_id payload)
              (ProjectIn.engineer_ids payload)).

(** [POST /projects] with its dependency *)
Definition POST_projects (authorization : option string)
    (payload : ProjectIn.t) : SiteM ProjectOut.t :=
  user <~ lift (require_roles ["Admin"; "Manager"] authorization) ;;
  create_project payload user.

Definition get_project (project_id : string) (user : CurrentUser.t)
  : SiteM ProjectOut.t :=
  oid <~ lift (ObjectId project_id) ;;
  fun s =>
    match find (fun p => N.eqb (Project._id p) oid) (c_project s) with
    | None => (s, Failed (HTTPException 404 "Not found"))
    | Some d =>
        (s, Done (ProjectOut.mk (str_ObjectId (Project._id d))
                    (Project.number d) (Project.title d) (Project.client d)
                    (Project.status d) (Project.manager_id d)
                    (Project.engineer_ids d)))
    end.

(** [GET /projects/{project_id}] with its dependency *)
Definition GET_project (authorization : option string) (project_id : string)
  : SiteM ProjectOut.t :=
  user <~ lift (get_current_user authorization) ;;
  get_project project_id user.

(** The requests a site serves: those above, and the two on projects. *)
Inductive site_request : Type :=
| OnWorld (r : request)
| CreateProject (authorization : option string) (payload : ProjectIn.t)
| GetProject (authorization : option string) (project_id : string).

Definition serve_site (r : site_request) (s : Site) : Site :=
  match r with
  | OnWorld r => mkSite (serve r (world s)) (c_project s) (c_counter s)
  | CreateProject authorization payload =>
      fst (POST_projects authorization payload s)
  | GetProject authorization project_id =>
      fst (GET_project authorization project_id s)
  end.

Inductive reachable_site : Site -> Prop :=
| reachable_site_start clock uuids oids :
    reachable_site
      (mkSite (mkWorld (mkDatabase [] [] [] []) clock uuids oids) [] [])
| reachable_site_serve r s :
    reachable_site s -> reachable_site (serve_site r s).

(** The value of the project counter, [0] before its first use. *)
Definition counter_value (s : Site) : Z :=
  match find is_project_number (c_counter s) with
  | Some seq => Counter.value seq
  | None => 0%Z
  end.

(** The project numbers are positive, increase in the order of creation and
    do not exceed the counter. *)
Definition numbers_ok (s : Site) : Prop :=
  StronglySorted Z.lt (map Project.number (c_project s)) /\
  Forall (fun p => (1 <= Project.number p <= counter_value s)%Z)
    (c_project s) /\
  (0 <= counter_value s)%Z.

(** A site with one project, made by the manager of the demo world. *)
Definition demo_site : Site := mkSite demo_world [] [].

Definition tower : ProjectIn.t :=
  ProjectIn.mk "Tower" "ACME" "active" (Some "000000000000000000000002")
    ["000000000000000000000001"].

(** The site after a sequence of requests, served in order. *)
Definition serve_site_all (rs : list site_request) (s : Site) : Site :=
  fold_left (fun s r => serve_site r s) rs s.

(** A site that has been used: a manager registers, logs in and creates
    two projects. *)
Definition studio : Site :=
  serve_site_all
    [ OnWorld (Register (RegisterBody.mk "Max" "max@intrack.io" "manager-pw"
                           "Manager"));
      OnWorld (Login (LoginBody.mk "max@intrack.io" "manager-pw"));
      CreateProject (Some "Bearer tok-1") tower;
      CreateProject (Some "Bearer tok-1")
        (ProjectIn.mk "Bridge" "City" "active" None []) ]
    (mkSite start_world [] []).

(** * Proofs *)

(** ** Collections *)

Section UpdateFirst.
Context {D : Type} (query : D -> bool) (update : D -> D).
Hypothesis update_keeps_query : forall d, query (update d) = query d.

Lemma find_update_first (l : list D) :
  find query (update_first query update l) = option_map update (find query l).
Proof.
  induction l as [|d l IH]; simpl; [reflexivity|].
  destruct (query d) eqn:Hq; simpl.
  - now rewrite update_keeps_query, Hq.
  - now rewrite Hq.
Qed.

Lemma length_update_first (l : list D) :
  List.length (update_first query update l) = List.length l.
Proof.
  induction l as [|d l IH]; simpl; [reflexivity|].
  destruct (query d); simpl; congruence.
Qed.

End UpdateFirst.

Lemma find_app_none {D} (query : D -> bool) (l1 l2 : list D) :
  find query l1 = None -> find query (l1 ++ l2) = find query l2.
Proof.
  induction l1 as [|d l1 IH]; simpl; [reflexivity|].
  destruct (query d); [discriminate | exact IH].
Qed.

Lemma existsb_false_find_none {D} (query : D -> bool) (l : list D) :
  existsb query l = false -> find query l = None.
Proof.
  induction l as [|d l IH]; simpl; [reflexivity|].
  destruct (query d); simpl; [discriminate | exact IH].
Qed.

Lemma find_none_existsb_false {D} (query : D -> bool) (l : list D) :
  find query l = None -> existsb query l = false.
Proof.
  induction l as [|d l IH]; simpl; [reflexivity|].
  destruct (query d); simpl; [discriminate | exact IH].
Qed.

(** ** The expense approval handler, run *)

Lemma by_id_set_status_push_approval oid st t e d :
  by_id coll_expense oid (set_status_push_approval st t e d)
  = by_id coll_expense oid d.
Proof. reflexivity. Qed.

(** With a well-formed id that resolves, the handler either refuses the role
    and writes nothing, or rewrites the document and returns it. *)
Lemma approve_expense_run expense_id body user w oid exp :
  parse_ObjectId expense_id = Some oid ->
  stored_expense w oid = Some exp ->
  approve_expense expense_id body user w =
    if String.eqb (Expense.status exp) "pending_manager"
       && negb (Str.mem (CurrentUser.role user) ["Manager"; "Admin"])
    then (w, Raise (HTTPException 403 "Manager approval required"))
    else if String.eqb (Expense.status exp) "pending_accountant"
            && negb (Str.mem (CurrentUser.role user) ["Accountant"; "Admin"])
    then (w, Raise (HTTPException 403 "Accountant approval required"))
    else (world_after_decision oid exp user body w,
          Return (expense_out (decided exp user body w))).
Proof.
  intros Hid Hexp. unfold stored_expense in Hexp.
  unfold approve_expense, ObjectId, bind. rewrite Hid.
  unfold ret, find_one at 1. cbn [docs coll_expense]. rewrite Hexp.
  destruct (String.eqb (Expense.status exp) "pending_manager"
            && negb (Str.mem (CurrentUser.role user) ["Manager"; "Admin"]));
    [reflexivity|].
  destruct (String.eqb (Expense.status exp) "pending_accountant"
            && negb (Str.mem (CurrentUser.role user) ["Accountant"; "Admin"]));
    [reflexivity|].
  unfold _now, update_one, find_one, set_db. cbn [db clock uuids oids fst snd].
  cbn [docs store coll_expense c_expense].
  rewrite (find_update_first (by_id coll_expense oid) _
             (by_id_set_status_push_approval oid _ _ _)), Hexp.
  reflexivity.
Qed.

(** After a decision the id resolves to the rewritten document. *)
Lemma stored_expense_after_decision oid exp user body w :
  stored_expense w oid = Some exp ->
  stored_expense (world_after_decision oid exp user body w) oid
  = Some (decided exp user body w).
Proof.
  intros Hexp. unfold stored_expense, world_after_decision in *.
  cbn [db store coll_expense c_expense].
  rewrite (find_update_first (by_id coll_expense oid) _
             (by_id_set_status_push_approval oid _ _ _)), Hexp.
  reflexivity.
Qed.

Ltac run_decision Hid Hexp :=
  rewrite (approve_expense_run _ _ _ _ _ _ Hid Hexp).

(** ** Decisions on an expense that is already approved or rejected *)

(** C1, as stated, fails: on the approved expense [18] of the demo database
    a [reject] by the engineer Eve is accepted and turns the status into
    [rejected]. *)
Lemma approved_expense_rejected_afterwards :
  stored_expense demo_world 18
  = Some (demo_expense 18 "approved" [by_max; by_ann]) /\
  ~ status_kept_entry_appended demo_world "000000000000000000000012"
      (reject_ None) eve.
Proof.
  split; [reflexivity|].
  intros H.
  destruct (H 18%N _ eq_refl eq_refl) as (w' & out & exp' & Hrun & Hst & Hs & _).
  vm_compute in Hrun. injection Hrun as Hw' _. subst w'.
  vm_compute in Hst. injection Hst as Hexp'. subst exp'.
  discriminate Hs.
Qed.

(** C1, amended.  On an expense whose status is [approved] or [rejected],
    a decision by any user succeeds and appends exactly one entry to the
    approvals; with action [approve] the status is unchanged, with action
    [reject] the status becomes [rejected]. *)
Theorem decision_on_decided_expense w expense_id oid exp body user :
  parse_ObjectId expense_id = Some oid ->
  stored_expense w oid = Some exp ->
  Expense.status exp = "approved" \/ Expense.status exp = "rejected" ->
  exists w' out exp',
    approve_expense expense_id body user w = (w', Return out) /\
    stored_expense w' oid = Some exp' /\
    (ApproveBody.action body = "approve" ->
       Expense.status exp' = Expense.status exp) /\
    (ApproveBody.action body = "reject" ->
       Expense.status exp' = "rejected") /\
    Expense.approvals exp'
    = Expense.approvals exp
      ++ [Approval.mk (CurrentUser._id user) (CurrentUser.role user)
            (ApproveBody.action body) (ApproveBody.note body)
            (peek (clock w))] /\
    ExpenseOut.status out = Expense.status exp' /\
    ExpenseOut.approvals out = Expense.approvals exp'.
Proof.
  intros Hid Hexp Hst.
  exists (world_after_decision oid exp user body w),
         (expense_out (decided exp user body w)), (decided exp user body w).
  run_decision Hid Hexp.
  split; [destruct Hst as [-> | ->]; reflexivity|].
  split; [now apply stored_expense_after_decision|].
  unfold decided, new_status_of; cbn.
  repeat split.
  - intros ->. destruct Hst as [-> | ->]; reflexivity.
  - intros ->. reflexivity.
Qed.

Lemma decision_on_decided_expense_witness :
  exists w' out exp',
    approve_expense "000000000000000000000013" (approve_ (Some "again")) eve
      demo_world = (w', Return out) /\
    stored_expense w' 19 = Some exp' /\
    Expense.status exp' = "rejected" /\
    List.length (Expense.approvals exp') = 2.
Proof.
  destruct (decision_on_decided_expense demo_world "000000000000000000000013"
              19%N (demo_expense 19 "rejected" [no_by_max])
              (approve_ (Some "again")) eve eq_refl eq_refl
              (or_intror eq_refl))
    as (w' & out & exp' & Hrun & Hst & Happrove & _ & Happ & _).
  exists w', out, exp'. repeat split; try assumption.
  - now rewrite (Happrove eq_refl).
  - now rewrite Happ.
Defined.

(** ** Role gating in the two pending states *)

Lemma mem_In x xs : Str.mem x xs = true <-> In x xs.
Proof.
  unfold Str.mem. rewrite existsb_exists. split.
  - intros (y & Hy & E). apply String.eqb_eq in E. now subst.
  - intros H. exists x. split; [assumption | apply String.eqb_refl].
Qed.

Lemma mem_not_In x xs : Str.mem x xs = false <-> ~ In x xs.
Proof.
  rewrite <- mem_In. destruct (Str.mem x xs); split; congruence.
Qed.

(** C2, as stated, fails: on the expense [16] of the demo database, pending
    at the manager, a [reject] by the engineer Eve is refused. *)
Lemma reject_by_engineer_refused :
  stored_expense demo_world 16 = Some (demo_expense 16 "pending_manager" []) /\
  approve_expense "000000000000000000000010" (reject_ None) eve demo_world
  = (demo_world, Raise (HTTPException 403 "Manager approval required")) /\
  ~ reject_lands demo_world "000000000000000000000010" (reject_ None) eve.
Proof.
  split; [reflexivity|]. split; [reflexivity|].
  intros H.
  destruct (H 16%N _ eq_refl eq_refl) as (w' & out & exp' & Hrun & _).
  vm_compute in Hrun. discriminate Hrun.
Qed.

(** C2, amended.  On an expense pending at the manager (at the accountant),
    a [reject] by a Manager or Admin (an Accountant or Admin) sets the status
    to [rejected] and appends one entry to the approvals; a [reject] by any
    other role is refused with 403 and nothing is written. *)
Theorem reject_on_pending_expense w expense_id oid exp body user allowed :
  parse_ObjectId expense_id = Some oid ->
  stored_expense w oid = Some exp ->
  ApproveBody.action body = "reject" ->
  (Expense.status exp = "pending_manager" /\ allowed = ["Manager"; "Admin"]) \/
  (Expense.status exp = "pending_accountant"
   /\ allowed = ["Accountant"; "Admin"]) ->
  (In (CurrentUser.role user) allowed ->
   exists w' out exp',
     approve_expense expense_id body user w = (w', Return out) /\
     stored_expense w' oid = Some exp' /\
     Expense.status exp' = "rejected" /\
     ExpenseOut.status out = "rejected" /\
     Expense.approvals exp'
     = Expense.approvals exp
       ++ [Approval.mk (CurrentUser._id user) (CurrentUser.role user)
             "reject" (ApproveBody.note body) (peek (clock w))]) /\
  (~ In (CurrentUser.role user) allowed ->
   exists detail,
     approve_expense expense_id body user w
     = (w, Raise (HTTPException 403 detail))).
Proof.
  intros Hid Hexp Hact Hst. split.
  - intros Hrole. apply mem_In in Hrole.
    exists (world_after_decision oid exp user body w),
           (expense_out (decided exp user body w)), (decided exp user body w).
    run_decision Hid Hexp.
    split.
    + destruct Hst as [[-> ->] | [-> ->]]; rewrite Hrole; reflexivity.
    + split; [now apply stored_expense_after_decision|].
      unfold decided, new_status_of, entry_of; rewrite Hact; cbn.
      repeat split.
  - intros Hrole. apply mem_not_In in Hrole.
    run_decision Hid Hexp.
    destruct Hst as [[-> ->] | [-> ->]]; rewrite Hrole; cbn; eauto.
Qed.

Lemma reject_on_pending_expense_witness :
  (exists w' out exp',
     approve_expense "000000000000000000000011" (reject_ (Some "no")) ann
       demo_world = (w', Return out) /\
     stored_expense w' 17 = Some exp' /\
     Expense.status exp' = "rejected" /\
     List.length (Expense.approvals exp') = 2) /\
  (exists detail,
     approve_expense "000000000000000000000011" (reject_ (Some "no")) max
       demo_world = (demo_world, Raise (HTTPException 403 detail))).
Proof.
  split.
  - destruct (reject_on_pending_expense demo_world "000000000000000000000011"
                17%N (demo_expense 17 "pending_accountant" [by_max])
                (reject_ (Some "no")) ann ["Accountant"; "Admin"]
                eq_refl eq_refl eq_refl (or_intror (conj eq_refl eq_refl)))
      as [Hyes _].
    destruct (Hyes (or_introl eq_refl))
      as (w' & out & exp' & Hrun & Hst & Hs & _ & Happ).
    exists w', out, exp'. repeat split; try assumption.
    now rewrite Happ.
  - destruct (reject_on_pending_expense demo_world "000000000000000000000011"
                17%N (demo_expense 17 "pending_accountant" [by_max])
                (reject_ (Some "no")) max ["Accountant"; "Admin"]
                eq_refl eq_refl eq_refl (or_intror (conj eq_refl eq_refl)))
      as [_ Hno].
    apply Hno. simpl. intros [H | [H | []]]; discriminate H.
Defined.

(** C4.  On an expense pending at the manager, [approve] by a Manager or an
    Admin moves it to [pending_accountant]; [approve] by an Accountant is
    refused with 403 and the world, hence the expense, is as before. *)
Theorem approve_pending_manager w expense_id oid exp body user :
  parse_ObjectId expense_id = Some oid ->
  stored_expense w oid = Some exp ->
  Expense.status exp = "pending_manager" ->
  ApproveBody.action body = "approve" ->
  (CurrentUser.role user = "Manager" \/ CurrentUser.role user = "Admin" ->
   exists w' out exp',
     approve_expense expense_id body user w = (w', Return out) /\
     stored_expense w' oid = Some exp' /\
     Expense.status exp' = "pending_accountant" /\
     ExpenseOut.status out = "pending_accountant") /\
  (CurrentUser.role user = "Accountant" ->
   approve_expense expense_id body user w
   = (w, Raise (HTTPException 403 "Manager approval required")) /\
   stored_expense w oid = Some exp).
Proof.
  intros Hid Hexp Hst Hact. split.
  - intros Hrole.
    exists (world_after_decision oid exp user body w),
           (expense_out (decided exp user body w)), (decided exp user body w).
    run_decision Hid Hexp. rewrite Hst.
    split; [destruct Hrole as [-> | ->]; reflexivity|].
    split; [now apply stored_expense_after_decision|].
    unfold decided, new_status_of. rewrite Hst, Hact. split; reflexivity.
  - intros Hrole. split; [|assumption].
    run_decision Hid Hexp. rewrite Hst, Hrole. reflexivity.
Qed.

Lemma approve_pending_manager_witness :
  (exists w' out exp',
     approve_expense "000000000000000000000010" (approve_ None) max demo_world
     = (w', Return out) /\
     stored_expense w' 16 = Some exp' /\
     Expense.status exp' = "pending_accountant" /\
     ExpenseOut.status out = "pending_accountant") /\
  approve_expense "000000000000000000000010" (approve_ None) ann demo_world
  = (demo_world, Raise (HTTPException 403 "Manager approval required")).
Proof.
  split.
  - exact (proj1 (approve_pending_manager demo_world "000000000000000000000010"
                    16%N (demo_expense 16 "pending_manager" []) (approve_ None)
                    max eq_refl eq_refl eq_refl eq_refl) (or_introl eq_refl)).
  - exact (proj1 (proj2 (approve_pending_manager demo_world
                           "000000000000000000000010" 16%N
                           (demo_expense 16 "pending_manager" [])
                           (approve_ None) ann eq_refl eq_refl eq_refl eq_refl)
                    eq_refl)).
Defined.

(** C5.  On an expense pending at the accountant, [approve] by an Accountant
    or an Admin moves it to [approved], and the approvals grow by exactly
    one entry, the one of this decision. *)
Theorem approve_pending_accountant w expense_id oid exp body user :
  parse_ObjectId expense_id = Some oid ->
  stored_expense w oid = Some exp ->
  Expense.status exp = "pending_accountant" ->
  ApproveBody.action body = "approve" ->
  CurrentUser.role user = "Accountant" \/ CurrentUser.role user = "Admin" ->
  exists w' out exp',
    approve_expense expense_id body user w = (w', Return out) /\
    stored_expense w' oid = Some exp' /\
    Expense.status exp' = "approved" /\
    ExpenseOut.status out = "approved" /\
    Expense.approvals exp'
    = Expense.approvals exp
      ++ [Approval.mk (CurrentUser._id user) (CurrentUser.role user)
            "approve" (ApproveBody.note body) (peek (clock w))] /\
    List.length (Expense.approvals exp')
    = S (List.length (Expense.approvals exp)) /\
    ExpenseOut.approvals out = Expense.approvals exp'.
Proof.
  intros Hid Hexp Hst Hact Hrole.
  exists (world_after_decision oid exp user body w),
         (expense_out (decided exp user body w)), (decided exp user body w).
  run_decision Hid Hexp. rewrite Hst.
  split; [destruct Hrole as [-> | ->]; reflexivity|].
  split; [now apply stored_expense_after_decision|].
  unfold decided, new_status_of, entry_of. rewrite Hst, Hact. cbn.
  repeat split.
  rewrite length_app. cbn. lia.
Qed.

Lemma approve_pending_accountant_witness :
  exists w' out exp',
    approve_expense "000000000000000000000011" (approve_ (Some "ok")) ann
      demo_world = (w', Return out) /\
    stored_expense w' 17 = Some exp' /\
    Expense.status exp' = "approved" /\
    Expense.approvals exp'
    = [by_max;
       Approval.mk "000000000000000000000003" "Accountant" "approve"
         (Some "ok") 1700000000000001%Z].
Proof.
  destruct (approve_pending_accountant demo_world "000000000000000000000011"
              17%N (demo_expense 17 "pending_accountant" [by_max])
              (approve_ (Some "ok")) ann eq_refl eq_refl eq_refl eq_refl
              (or_introl eq_refl))
    as (w' & out & exp' & Hrun & Hst & Hs & _ & Happ & _).
  exists w', out, exp'. repeat split; assumption.
Defined.

(** For the text of an ObjectId: when it resolves to no expense the handler
    raises 404; when it resolves to an expense pending at the manager (at
    the accountant) and the role is other than Manager or Admin (Accountant
    or Admin) it raises 403.  In both cases the world it leaves is the world
    it found: nothing is written, the expense is as it was. *)
Theorem approve_expense_not_found_or_forbidden w expense_id oid body user :
  parse_ObjectId expense_id = Some oid ->
  (stored_expense w oid = None ->
   approve_expense expense_id body user w
   = (w, Raise (HTTPException 404 "Expense not found"))) /\
  (forall exp,
     stored_expense w oid = Some exp ->
     (Expense.status exp = "pending_manager"
      /\ ~ In (CurrentUser.role user) ["Manager"; "Admin"]) \/
     (Expense.status exp = "pending_accountant"
      /\ ~ In (CurrentUser.role user) ["Accountant"; "Admin"]) ->
     exists detail,
       approve_expense expense_id body user w
       = (w, Raise (HTTPException 403 detail)) /\
       stored_expense (fst (approve_expense expense_id body user w)) oid
       = Some exp).
Proof.
  intros Hid. split.
  - intros Hnone. unfold stored_expense in Hnone.
    unfold approve_expense, ObjectId, bind. rewrite Hid.
    unfold ret, find_one. cbn [docs coll_expense]. now rewrite Hnone.
  - intros exp Hexp Hgate.
    run_decision Hid Hexp.
    destruct Hgate as [[-> Hrole] | [-> Hrole]];
      apply mem_not_In in Hrole; rewrite Hrole; cbn; eauto.
Qed.

Lemma approve_expense_not_found_or_forbidden_witness :
  approve_expense "0000000000000000000000ff" (approve_ None) ada demo_world
  = (demo_world, Raise (HTTPException 404 "Expense not found")) /\
  exists detail,
    approve_expense "000000000000000000000011" (approve_ None) eve demo_world
    = (demo_world, Raise (HTTPException 403 detail)).
Proof.
  split.
  - exact (proj1 (approve_expense_not_found_or_forbidden demo_world
                    "0000000000000000000000ff" 255%N (approve_ None) ada
                    eq_refl) eq_refl).
  - destruct (proj2 (approve_expense_not_found_or_forbidden demo_world
                       "000000000000000000000011" 17%N (approve_ None) eve
                       eq_refl)
                (demo_expense 17 "pending_accountant" [by_max]) eq_refl)
      as (detail & Hrun & _).
    + right. split; [reflexivity|].
      simpl. intros [H | [H | []]]; discriminate H.
    + exists detail. exact Hrun.
Defined.

(** An id that [parse_ObjectId] turns down never reaches the collection:
    the handler stops without a write. *)
Lemma approve_expense_unparsed w expense_id body user :
  parse_ObjectId expense_id = None ->
  fst (approve_expense expense_id body user w) = w.
Proof.
  intros Hid. unfold approve_expense, ObjectId, bind. now rewrite Hid.
Qed.

(** An id that is not 24 characters long is no ObjectId: [ObjectId] raises
    [InvalidId], which no handler catches, and the world is as before. *)
Lemma approve_expense_invalid_id w expense_id body user :
  String.length expense_id <> 24 ->
  approve_expense expense_id body user w = (w, Raise InvalidId).
Proof.
  intros Hlen. apply Nat.eqb_neq in Hlen.
  unfold approve_expense, ObjectId, bind, parse_ObjectId. now rewrite Hlen.
Qed.

(** ** The current user *)

(** [get_current_user] only reads. *)
Lemma get_current_user_reads_only authorization w :
  fst (get_current_user authorization w) = w.
Proof.
  unfold get_current_user.
  destruct authorization as [a|]; [|reflexivity].
  destruct (String.eqb a "" || negb (Str.startswith (Str.lower a) "bearer "));
    [reflexivity|].
  destruct (nth_error (Str.split_space_1 a) 1) as [token|]; [|reflexivity].
  unfold bind, find_one.
  destruct (find _ (docs coll_session (db w))) as [session|]; [|reflexivity].
  destruct (find _ (docs coll_user (db w))) as [user|]; reflexivity.
Qed.

(** C9.  On an expense whose status is [approved] or [rejected], the approve
    endpoint accepts the decision of every authenticated user, whatever
    their role: it returns a response, and so never raises 403. *)
Theorem decided_expense_open_to_every_role
    w authorization user expense_id oid exp body :
  get_current_user authorization w = (w, Return user) ->
  parse_ObjectId expense_id = Some oid ->
  stored_expense w oid = Some exp ->
  Expense.status exp = "approved" \/ Expense.status exp = "rejected" ->
  (exists w' out,
     POST_expenses_approve authorization expense_id body w = (w', Return out))
  /\
  (forall detail,
     snd (POST_expenses_approve authorization expense_id body w)
     <> Raise (HTTPException 403 detail)) /\
  (exists w' out,
     approve_expense expense_id body user w = (w', Return out)).
Proof.
  intros Huser Hid Hexp Hst.
  assert (Hrun : approve_expense expense_id body user w
                 = (world_after_decision oid exp user body w,
                    Return (expense_out (decided exp user body w)))).
  { run_decision Hid Hexp. destruct Hst as [-> | ->]; reflexivity. }
  assert (Hroute : POST_expenses_approve authorization expense_id body w
                   = approve_expense expense_id body user w).
  { unfold POST_expenses_approve, bind. now rewrite Huser. }
  rewrite Hroute, Hrun. repeat split; eauto. discriminate.
Qed.

Lemma decided_expense_open_to_every_role_witness :
  get_current_user (Some "Bearer token-eve") demo_world
  = (demo_world, Return eve) /\
  CurrentUser.role eve = "Engineer" /\
  exists w' out,
    POST_expenses_approve (Some "Bearer token-eve") "000000000000000000000012"
      (approve_ None) demo_world = (w', Return out).
Proof.
  split; [reflexivity|]. split; [reflexivity|].
  exact (proj1 (decided_expense_open_to_every_role demo_world
                  (Some "Bearer token-eve") eve "000000000000000000000012"
                  18%N (demo_expense 18 "approved" [by_max; by_ann])
                  (approve_ None) eq_refl eq_refl eq_refl
                  (or_introl eq_refl))).
Defined.

(** ** Decisions on a leave *)

Lemma by_id_set_leave_status oid st t d :
  by_id coll_leave oid (set_leave_status st t d) = by_id coll_leave oid d.
Proof. reflexivity. Qed.

(** With a well-formed id that resolves, [approve_leave] rewrites the
    document and returns it, whatever its status was. *)
Lemma approve_leave_run leave_id body user w oid leave :
  parse_ObjectId leave_id = Some oid ->
  stored_leave w oid = Some leave ->
  approve_leave leave_id body user w
  = (world_after_leave_decision oid body w,
     Return (leave_out
               (set_leave_status (leave_status_of (ApproveBody.action body))
                  (peek (clock w)) leave))).
Proof.
  intros Hid Hleave. unfold stored_leave in Hleave.
  unfold approve_leave, ObjectId, bind. rewrite Hid.
  unfold ret, find_one at 1. cbn [docs coll_leave]. rewrite Hleave.
  unfold _now, update_one, find_one, set_db. cbn [db clock uuids oids].
  cbn [docs store coll_leave c_leave].
  rewrite (find_update_first (by_id coll_leave oid) _
             (by_id_set_leave_status oid _ _)), Hleave.
  reflexivity.
Qed.

Lemma stored_leave_after_decision oid leave body w :
  stored_leave w oid = Some leave ->
  stored_leave (world_after_leave_decision oid body w) oid
  = Some (set_leave_status (leave_status_of (ApproveBody.action body))
            (peek (clock w)) leave).
Proof.
  intros Hleave. unfold stored_leave, world_after_leave_decision in *.
  cbn [db store coll_leave c_leave].
  rewrite (find_update_first (by_id coll_leave oid) _
             (by_id_set_leave_status oid _ _)), Hleave.
  reflexivity.
Qed.

(** C10.  Whatever the status of a leave, pending or already decided, a
    decision with action [approve] leaves it [approved] and a decision with
    action [reject] leaves it [rejected]. *)
Theorem leave_status_follows_action w leave_id oid leave body user :
  parse_ObjectId leave_id = Some oid ->
  stored_leave w oid = Some leave ->
  exists w' out leave',
    approve_leave leave_id body user w = (w', Return out) /\
    stored_leave w' oid = Some leave' /\
    LeaveOut.status out = Leave.status leave' /\
    (ApproveBody.action body = "approve" ->
       Leave.status leave' = "approved") /\
    (ApproveBody.action body = "reject" ->
       Leave.status leave' = "rejected").
Proof.
  intros Hid Hleave.
  exists (world_after_leave_decision oid body w),
         (leave_out
            (set_leave_status (leave_status_of (ApproveBody.action body))
               (peek (clock w)) leave)),
         (set_leave_status (leave_status_of (ApproveBody.action body))
            (peek (clock w)) leave).
  split; [now apply approve_leave_run|].
  split; [now apply stored_leave_after_decision|].
  cbn. unfold leave_status_of.
  repeat split; intros ->; reflexivity.
Qed.

Lemma leave_status_follows_action_witness :
  stored_leave demo_world 33
  = Some (Leave.mk 33 "2024-08-01" "2024-08-02" None "approved"
            "000000000000000000000003" t0 t0) /\
  exists w' out leave',
    approve_leave "000000000000000000000021" (reject_ None) max demo_world
    = (w', Return out) /\
    stored_leave w' 33 = Some leave' /\
    Leave.status leave' = "rejected".
Proof.
  split; [reflexivity|].
  destruct (leave_status_follows_action demo_world "000000000000000000000021"
              33%N _ (reject_ None) max eq_refl eq_refl)
    as (w' & out & leave' & Hrun & Hst & _ & _ & Hrej).
  exists w', out, leave'. repeat split; try assumption.
  exact (Hrej eq_refl).
Defined.

Lemma find_update_first_other {D} (query other : D -> bool) (update : D -> D)
    (l : list D) :
  (forall d, other (update d) = other d) ->
  (forall d, query d = true -> other d = false) ->
  find other (update_first query update l) = find other l.
Proof.
  intros Hkeep Hdisj.
  induction l as [|d l IH]; simpl; [reflexivity|].
  destruct (query d) eqn:Hq; simpl.
  - now rewrite Hkeep, (Hdisj d Hq).
  - now rewrite IH.
Qed.

(** C3, as stated, fails: when the admin Ada approves the pending leave
    [32] of the demo database with the note "enjoy", the call succeeds, the
    database afterwards differs from the one before in the status and the
    [updated_at] of that leave only, and no Approval entry of the decision
    is in it. *)
Lemma leave_decision_leaves_no_entry :
  (exists w' out,
     approve_leave "000000000000000000000020" (approve_ (Some "enjoy")) ada
       demo_world = (w', Return out) /\
     db w'
     = mkDatabase demo_users demo_sessions demo_expenses
         [ Leave.mk 32 "2024-07-01" "2024-07-05" (Some "holiday") "approved"
             "000000000000000000000001" t0 1700000000000001;
           Leave.mk 33 "2024-08-01" "2024-08-02" None "approved"
             "000000000000000000000003" t0 t0 ]) /\
  ~ leave_decision_logged demo_world "000000000000000000000020"
      (approve_ (Some "enjoy")) ada.
Proof.
  split.
  - eexists. eexists. split; [vm_compute; reflexivity | reflexivity].
  - intros H.
    destruct (H _ _ (approve_leave_run "000000000000000000000020"
                       (approve_ (Some "enjoy")) ada demo_world 32%N _
                       eq_refl eq_refl))
      as (e & Hin & Hby & _).
    vm_compute in Hin.
    destruct Hin as [<- | [<- | [<- | [<- | []]]]]; discriminate Hby.
Qed.

(** C3, amended.  Every successful decision on a leave sets the status of
    the leave from the action and its [updated_at] to the clock reading, and
    writes nothing else: the other fields of the leave, the other leaves,
    and the user, session and expense collections are as before, so no
    Approval entry is appended anywhere. *)
Theorem leave_decision_sets_status_and_timestamp
    w leave_id oid leave body user :
  parse_ObjectId leave_id = Some oid ->
  stored_leave w oid = Some leave ->
  exists w' out,
    approve_leave leave_id body user w = (w', Return out) /\
    stored_leave w' oid
    = Some (Leave.mk (Leave._id leave) (Leave.start_date leave)
              (Leave.end_date leave) (Leave.reason leave)
              (if String.eqb (ApproveBody.action body) "approve"
               then "approved" else "rejected")
              (Leave.user_id leave) (Leave.created_at leave)
              (peek (clock w))) /\
    (forall other, other <> oid -> stored_leave w' other = stored_leave w other)
    /\
    List.length (c_leave (db w')) = List.length (c_leave (db w)) /\
    c_user (db w') = c_user (db w) /\
    c_session (db w') = c_session (db w) /\
    c_expense (db w') = c_expense (db w) /\
    audit_entries (db w') = audit_entries (db w).
Proof.
  intros Hid Hleave.
  exists (world_after_leave_decision oid body w),
         (leave_out
            (set_leave_status (leave_status_of (ApproveBody.action body))
               (peek (clock w)) leave)).
  split; [now apply approve_leave_run|].
  split; [now apply stored_leave_after_decision|].
  split.
  - intros other Hne. unfold stored_leave, world_after_leave_decision.
    cbn [db store coll_leave c_leave].
    apply find_update_first_other; [reflexivity|].
    intros d Hd. unfold by_id in *.
    apply N.eqb_eq in Hd. apply N.eqb_neq. congruence.
  - unfold world_after_leave_decision. cbn [db store coll_leave c_leave].
    rewrite length_update_first. repeat split.
Qed.

Lemma leave_decision_sets_status_and_timestamp_witness :
  exists w' out,
    approve_leave "000000000000000000000020" (reject_ None) max demo_world
    = (w', Return out) /\
    stored_leave w' 32
    = Some (Leave.mk 32 "2024-07-01" "2024-07-05" (Some "holiday") "rejected"
              "000000000000000000000001" t0 1700000000000001) /\
    audit_entries (db w') = audit_entries (db demo_world).
Proof.
  destruct (leave_decision_sets_status_and_timestamp demo_world
              "000000000000000000000020" 32%N _ (reject_ None) max
              eq_refl eq_refl)
    as (w' & out & Hrun & Hst & _ & _ & _ & _ & _ & Haudit).
  exists w', out. repeat split; assumption.
Defined.

(** ** Creating an expense *)

Lemma insert_one_fresh {D} (c : Collection D) (doc : ObjectId_t -> D) w :
  oid_fresh c w ->
  insert_one c doc w
  = (set_db (store c (docs c (db w) ++ [doc (peek (oids w))]) (db w))
       (mkWorld (db w) (clock w) (uuids w) (advance (oids w))),
     Return (peek (oids w))).
Proof.
  intros Hfresh. unfold insert_one.
  now rewrite (find_none_existsb_false _ _ Hfresh).
Qed.

Lemma create_expense_run payload user w :
  oid_fresh coll_expense w ->
  create_expense payload user w
  = (world_after_create payload user w,
     Return (expense_out (new_expense payload user w))).
Proof.
  intros Hfresh. unfold create_expense, bind, _now.
  rewrite insert_one_fresh by exact Hfresh.
  reflexivity.
Qed.

Lemma require_roles_run roles authorization user w :
  get_current_user authorization w = (w, Return user) ->
  In (CurrentUser.role user) roles ->
  require_roles roles authorization w = (w, Return user).
Proof.
  intros Huser Hrole. apply mem_In in Hrole.
  unfold require_roles, bind. now rewrite Huser, Hrole.
Qed.

Lemma require_roles_refuses roles authorization user w :
  get_current_user authorization w = (w, Return user) ->
  ~ In (CurrentUser.role user) roles ->
  require_roles roles authorization w
  = (w, Raise (HTTPException 403 "Forbidden")).
Proof.
  intros Huser Hrole. apply mem_not_In in Hrole.
  unfold require_roles, bind. now rewrite Huser, Hrole.
Qed.

(** C6.  When an Engineer, a Manager or an Admin creates an expense (and the
    driver's new ObjectId is not taken), the endpoint returns an expense in
    status [pending_manager] with no approvals, and that is the document it
    has appended to the collection and that the returned id resolves to. *)
Theorem created_expense_starts_pending_manager w authorization user payload :
  get_current_user authorization w = (w, Return user) ->
  In (CurrentUser.role user) ["Engineer"; "Manager"; "Admin"] ->
  oid_fresh coll_expense w ->
  exists w' out exp,
    POST_expenses authorization payload w = (w', Return out) /\
    ExpenseOut.status out = "pending_manager" /\
    ExpenseOut.approvals out = [] /\
    ExpenseOut.id out = str_ObjectId (Expense._id exp) /\
    c_expense (db w') = c_expense (db w) ++ [exp] /\
    stored_expense w' (Expense._id exp) = Some exp /\
    Expense.status exp = "pending_manager" /\
    Expense.approvals exp = [].
Proof.
  intros Huser Hrole Hfresh.
  exists (world_after_create payload user w),
         (expense_out (new_expense payload user w)),
         (new_expense payload user w).
  split.
  - unfold POST_expenses, bind.
    rewrite (require_roles_run _ _ _ _ Huser Hrole).
    now apply create_expense_run.
  - repeat split.
    unfold stored_expense, world_after_create.
    cbn [db store coll_expense c_expense Expense._id new_expense].
    rewrite find_app_none by exact Hfresh.
    cbn. unfold by_id. cbn. now rewrite N.eqb_refl.
Qed.

Lemma created_expense_starts_pending_manager_witness :
  exists w' out,
    POST_expenses (Some "Bearer token-eve")
      (ExpenseIn.mk "P1" 100.0%float "USD" None) demo_world
    = (w', Return out) /\
    ExpenseOut.status out = "pending_manager" /\
    ExpenseOut.approvals out = [] /\
    List.length (c_expense (db w')) = 5.
Proof.
  destruct (created_expense_starts_pending_manager demo_world
              (Some "Bearer token-eve") eve
              (ExpenseIn.mk "P1" 100.0%float "USD" None)
              eq_refl (or_introl eq_refl) eq_refl)
    as (w' & out & exp & Hrun & Hs & Ha & _ & Hcoll & _).
  exists w', out. repeat split; try assumption.
  rewrite Hcoll, length_app. reflexivity.
Defined.

(** Whenever [POST /expenses] returns, what it returns is an expense in
    status [pending_manager] with no approvals. *)
Lemma POST_expenses_returns w authorization payload w' out :
  POST_expenses authorization payload w = (w', Return out) ->
  ExpenseOut.status out = "pending_manager" /\ ExpenseOut.approvals out = [].
Proof.
  unfold POST_expenses, create_expense, bind, _now, insert_one, ret.
  destruct (require_roles _ authorization w) as [w1 [user|e]];
    [|discriminate].
  cbn [db clock uuids oids].
  destruct (existsb _ _); [discriminate|].
  intros H. injection H as _ <-. split; reflexivity.
Qed.

(** ** Login and the session it opens *)

Section UniqueKey.
Context {D K : Type} (key : D -> K) (eqb : K -> K -> bool).
Hypothesis eqb_spec : forall a b, eqb a b = true <-> a = b.

(** In a collection with unique keys, a query by key finds the document that
    has it. *)
Lemma find_unique_key (l : list D) (u : D) :
  NoDup (map key l) -> In u l ->
  find (fun d => eqb (key d) (key u)) l = Some u.
Proof.
  induction l as [|d l IH]; simpl; [intros _ []|].
  intros Hnd Hin. inversion Hnd as [|? ? Hnotin Hnd']; subst.
  destruct Hin as [-> | Hin].
  - now rewrite (proj2 (eqb_spec (key u) (key u)) eq_refl).
  - destruct (eqb (key d) (key u)) eqn:E.
    + apply eqb_spec in E. exfalso. apply Hnotin. rewrite E.
      now apply in_map.
    + now apply IH.
Qed.

End UniqueKey.

Lemma find_user_by_email d u :
  users_wf d -> In u (c_user d) ->
  find (fun x => String.eqb (User.email x) (User.email u)) (c_user d) = Some u.
Proof.
  intros [_ Hemail] Hin.
  exact (find_unique_key User.email String.eqb String.eqb_eq _ _ Hemail Hin).
Qed.

Lemma find_user_by_id d u :
  users_wf d -> In u (c_user d) ->
  find (by_id coll_user (User._id u)) (c_user d) = Some u.
Proof.
  intros [Hid _] Hin.
  exact (find_unique_key User._id N.eqb N.eqb_eq _ _ Hid Hin).
Qed.

Lemma login_run body user w :
  find (fun u => String.eqb (User.email u) (LoginBody.email body))
    (c_user (db w)) = Some user ->
  User.password user = LoginBody.password body ->
  oid_fresh coll_session w ->
  login body w
  = (world_after_login user w,
     Return (LoginOut.mk (peek (uuids w)) (user_out user))).
Proof.
  intros Huser Hpw Hfresh.
  unfold login, bind, find_one. cbn [docs coll_user]. rewrite Huser, Hpw.
  rewrite String.eqb_refl. cbn [negb]. unfold uuid4, _now.
  rewrite insert_one_fresh by exact Hfresh.
  reflexivity.
Qed.

Lemma login_wrong_password body user w :
  find (fun u => String.eqb (User.email u) (LoginBody.email body))
    (c_user (db w)) = Some user ->
  User.password user <> LoginBody.password body ->
  login body w = (w, Raise (HTTPException 401 "Invalid credentials")).
Proof.
  intros Huser Hpw. apply String.eqb_neq in Hpw.
  unfold login, bind, find_one. cbn [docs coll_user].
  now rewrite Huser, Hpw.
Qed.

(** The header [Bearer <token>] passes the scheme test and gives back the
    token, whatever the token is. *)
Lemma bearer_header token :
  let authorization := String.append "Bearer " token in
  (String.eqb authorization ""
   || negb (Str.startswith (Str.lower authorization) "bearer ")) = false /\
  nth_error (Str.split_space_1 authorization) 1 = Some token.
Proof.
  split; [|reflexivity].
  cbn. unfold Str.startswith. cbn.
  now destruct (Str.lower token).
Qed.

(** A world whose session collection resolves [token] to a session of the
    user [u] answers [Bearer token] with [u]. *)
Lemma get_current_user_run token session u w :
  find (fun s => String.eqb (Session.token s) token) (c_session (db w))
  = Some session ->
  find (by_id coll_user (Session.user_id session)) (c_user (db w)) = Some u ->
  get_current_user (Some (String.append "Bearer " token)) w
  = (w, Return (CurrentUser.mk (str_ObjectId (User._id u)) (User.name u)
                  (User.email u) (User.role u))).
Proof.
  intros Hsession Huser.
  destruct (bearer_header token) as [Hscheme Hsplit].
  unfold get_current_user. cbv zeta in Hscheme, Hsplit.
  rewrite Hscheme, Hsplit.
  unfold bind, find_one. cbn [docs coll_session coll_user].
  now rewrite Hsession, Huser.
Qed.

(** C8.  For a user of a database with unique ids and emails: login with
    their email and any other password raises 401 and writes nothing; login
    with their password (the uuid drawn being no stored token, the session's
    ObjectId not taken) returns a token, and [/auth/me] called with
    [Bearer <token>] returns the id, name, email and role of that user. *)
Theorem login_then_me w u :
  users_wf (db w) ->
  In u (c_user (db w)) ->
  (forall password,
     password <> User.password u ->
     login (LoginBody.mk (User.email u) password) w
     = (w, Raise (HTTPException 401 "Invalid credentials"))) /\
  (token_fresh w ->
   oid_fresh coll_session w ->
   exists w' out,
     login (LoginBody.mk (User.email u) (User.password u)) w
     = (w', Return out) /\
     LoginOut.user out
     = UserOut.mk (str_ObjectId (User._id u)) (User.name u) (User.email u)
         (User.role u) /\
     GET_auth_me (Some (String.append "Bearer " (LoginOut.token out))) w'
     = (w', Return (UserOut.mk (str_ObjectId (User._id u)) (User.name u)
                      (User.email u) (User.role u)))).
Proof.
  intros Hwf Hin.
  pose proof (find_user_by_email _ _ Hwf Hin) as Hemail.
  split.
  - intros password Hpw. apply login_wrong_password with (user := u).
    + exact Hemail.
    + cbn. congruence.
  - intros Htoken Hfresh.
    exists (world_after_login u w),
           (LoginOut.mk (peek (uuids w)) (user_out u)).
    split; [now apply login_run|]. split; [reflexivity|].
    unfold GET_auth_me, bind. cbn [LoginOut.token].
    rewrite (get_current_user_run (peek (uuids w)) (new_session u w) u).
    + reflexivity.
    + unfold world_after_login. cbn [db store coll_session c_session].
      rewrite find_app_none by exact Htoken.
      cbn. now rewrite String.eqb_refl.
    + cbn. now apply find_user_by_id.
Qed.

Lemma demo_users_wf : users_wf (db demo_world).
Proof.
  split; cbn; repeat constructor; cbn; intuition discriminate.
Qed.

Lemma login_then_me_witness :
  login (LoginBody.mk "eve@intrack.io" "manager-pw") demo_world
  = (demo_world, Raise (HTTPException 401 "Invalid credentials")) /\
  exists w' out,
    login (LoginBody.mk "eve@intrack.io" "engineer-pw") demo_world
    = (w', Return out) /\
    LoginOut.token out = "3f0c9a52-7f1e-4c7b-9a55-0d1c2b3a4e5f" /\
    GET_auth_me (Some (String.append "Bearer " (LoginOut.token out))) w'
    = (w', Return (UserOut.mk "000000000000000000000001" "Eve"
                     "eve@intrack.io" "Engineer")).
Proof.
  destruct (login_then_me demo_world
              (User.mk 1 "Eve" "eve@intrack.io" "engineer-pw" "Engineer"
                 t0 t0 "active")
              demo_users_wf (or_introl eq_refl)) as [Hwrong Hright].
  split.
  - apply (Hwrong "manager-pw"). discriminate.
  - destruct (Hright eq_refl eq_refl) as (w' & out & Hrun & Huser & Hme).
    exists w', out. repeat split; try assumption.
    pose proof Hrun as Hrun'. vm_compute in Hrun'.
    now injection Hrun' as _ <-.
Defined.

(** ** The user collection in reachable worlds *)

Lemma keeps_ret {A} (a : A) : keeps_users (ret a).
Proof. intros w. reflexivity. Qed.

Lemma keeps_raise {A} e : keeps_users (@raise A e).
Proof. intros w. reflexivity. Qed.

Lemma keeps_bind {A B} (m : M A) (k : A -> M B) :
  keeps_users m -> (forall a, keeps_users (k a)) -> keeps_users (bind m k).
Proof.
  intros Hm Hk w. unfold bind. specialize (Hm w).
  destruct (m w) as [w1 [a|e]]; cbn in Hm.
  - now rewrite Hk.
  - exact Hm.
Qed.

Lemma keeps_now : keeps_users _now.
Proof. intros w. reflexivity. Qed.

Lemma keeps_uuid4 : keeps_users uuid4.
Proof. intros w. reflexivity. Qed.

Lemma keeps_ObjectId s : keeps_users (ObjectId s).
Proof. intros w. unfold ObjectId. now destruct (parse_ObjectId s). Qed.

Lemma keeps_find_one {D} (c : Collection D) q : keeps_users (find_one c q).
Proof. intros w. reflexivity. Qed.

Lemma keeps_update_one {D} (c : Collection D) q f :
  (forall l d, c_user (store c l d) = c_user d) ->
  keeps_users (update_one c q f).
Proof. intros Hc w. cbn. apply Hc. Qed.

Lemma keeps_insert_one {D} (c : Collection D) doc :
  (forall l d, c_user (store c l d) = c_user d) ->
  keeps_users (insert_one c doc).
Proof.
  intros Hc w. unfold insert_one.
  destruct (existsb _ _); cbn; [reflexivity | apply Hc].
Qed.

Lemma keeps_delete_one {D} (c : Collection D) q :
  (forall l d, c_user (store c l d) = c_user d) ->
  keeps_users (delete_one c q).
Proof. intros Hc w. cbn. apply Hc. Qed.

Ltac keeps :=
  repeat first
    [ apply keeps_ret | apply keeps_raise | apply keeps_now
    | apply keeps_uuid4 | apply keeps_ObjectId | apply keeps_find_one
    | apply keeps_update_one; reflexivity
    | apply keeps_insert_one; reflexivity
    | apply keeps_delete_one; reflexivity
    | apply keeps_bind; [|intro]
    | match goal with
      | |- keeps_users (match ?x with _ => _ end) => destruct x
      end ].

Lemma keeps_get_current_user authorization :
  keeps_users (get_current_user authorization).
Proof. unfold get_current_user. keeps. Qed.

Lemma keeps_require_roles roles authorization :
  keeps_users (require_roles roles authorization).
Proof.
  unfold require_roles.
  apply keeps_bind; [apply keeps_get_current_user | intro]. keeps.
Qed.

Lemma keeps_login body : keeps_users (login body).
Proof. unfold login. keeps. Qed.

Lemma keeps_approve_expense expense_id body user :
  keeps_users (approve_expense expense_id body user).
Proof. unfold approve_expense. keeps. Qed.

Lemma keeps_create_expense payload user :
  keeps_users (create_expense payload user).
Proof. unfold create_expense. keeps. Qed.

Lemma keeps_request_leave payload user :
  keeps_users (request_leave payload user).
Proof. unfold request_leave. keeps. Qed.

Lemma keeps_approve_leave leave_id body user :
  keeps_users (approve_leave leave_id body user).
Proof. unfold approve_leave. keeps. Qed.

Lemma keeps_logout authorization : keeps_users (logout authorization).
Proof. unfold logout. keeps. Qed.

Lemma find_none_not_in_keys {D K} (key : D -> K) (eqb : K -> K -> bool)
    (l : list D) (k : K) :
  (forall a b, eqb a b = true <-> a = b) ->
  find (fun d => eqb (key d) k) l = None -> ~ In k (map key l).
Proof.
  intros eqb_spec. induction l as [|d l IH]; simpl; [tauto|].
  destruct (eqb (key d) k) eqn:E; [discriminate|].
  intros Hnone [Hk | Hin]; [|now apply IH].
  apply eqb_spec in Hk. congruence.
Qed.

Lemma NoDup_keys_snoc {D K} (key : D -> K) (l : list D) (x : D) :
  NoDup (map key l) -> ~ In (key x) (map key l) ->
  NoDup (map key (l ++ [x])).
Proof.
  intros Hnd Hnotin. rewrite map_app. cbn.
  apply NoDup_app; [assumption | repeat constructor; tauto |].
  intros k Hk [<- | []]. now apply Hnotin.
Qed.

(** [register] keeps ids and emails unique: it refuses a known email, and
    the server refuses a known [_id]. *)
Lemma register_users_wf body w :
  users_wf (db w) -> users_wf (db (fst (register body w))).
Proof.
  intros [Hid Hemail]. unfold register.
  destruct (negb _); [now split|].
  unfold bind, find_one at 1. cbn [docs coll_user].
  destruct (find _ (c_user (db w))) as [existing|] eqn:Hfind; [now split|].
  unfold _now, insert_one. cbn [db clock uuids oids docs coll_user].
  destruct (existsb _ (c_user (db w))) eqn:Hdup; [now split|].
  cbn. split; apply NoDup_keys_snoc; try assumption; cbn.
  - apply (find_none_not_in_keys User._id N.eqb _ _ N.eqb_eq).
    now apply existsb_false_find_none.
  - apply (find_none_not_in_keys User.email String.eqb _ _ String.eqb_eq).
    exact Hfind.
Qed.

Lemma serve_users_wf r w : users_wf (db w) -> users_wf (db (serve r w)).
Proof.
  intros Hwf. destruct r; cbn [serve].
  - now apply register_users_wf.
  - unfold users_wf. now rewrite keeps_login.
  - unfold users_wf, GET_auth_me.
    rewrite (keeps_bind _ _ (keeps_get_current_user _)); [assumption|].
    intros a v. reflexivity.
  - unfold users_wf, POST_expenses.
    rewrite (keeps_bind _ _ (keeps_require_roles _ _)); [assumption|].
    intro. apply keeps_create_expense.
  - unfold users_wf, POST_expenses_approve.
    rewrite (keeps_bind _ _ (keeps_get_current_user _)); [assumption|].
    intro. apply keeps_approve_expense.
  - unfold users_wf, POST_leaves.
    rewrite (keeps_bind _ _ (keeps_require_roles _ _)); [assumption|].
    intro. apply keeps_request_leave.
  - unfold users_wf, POST_leaves_approve.
    rewrite (keeps_bind _ _ (keeps_require_roles _ _)); [assumption|].
    intro. apply keeps_approve_leave.
  - unfold users_wf. now rewrite keeps_logout.
Qed.

(** X24.  In every world the server can reach, no two users share an id
    or an email: [register] refuses a known email and the server a known
    [_id], and no other request touches the users.  The assumption of
    [login_then_me] holds there. *)
Lemma reachable_users_wf w : reachable w -> users_wf (db w).
Proof.
  induction 1 as [clock uuids oids | r w _ IH].
  - split; constructor.
  - now apply serve_users_wf.
Qed.

(** ** The text form of an ObjectId *)

Lemma hex_value_digit d :
  (d < 16)%N -> hex_value (hex_digit d) = Some d.
Proof.
  intros Hd.
  assert (H : In d [0; 1; 2; 3; 4; 5; 6; 7; 8; 9; 10; 11; 12; 13; 14; 15]%N).
  { cbn. lia. }
  cbn in H.
  repeat (destruct H as [<- | H]; [reflexivity|]). destruct H.
Qed.

Lemma length_append_string s1 s2 :
  String.length (String.append s1 s2) = String.length s1 + String.length s2.
Proof. induction s1 as [|c s1 IH]; cbn; [reflexivity | now rewrite IH]. Qed.

Lemma length_to_hex width n : String.length (to_hex width n) = width.
Proof.
  revert n. induction width as [|k IH]; intros n; cbn; [reflexivity|].
  rewrite length_append_string, IH. cbn. lia.
Qed.

Lemma append_assoc_string s1 s2 s3 :
  String.append (String.append s1 s2) s3
  = String.append s1 (String.append s2 s3).
Proof. induction s1 as [|c s1 IH]; cbn; [reflexivity | now rewrite IH]. Qed.

Lemma of_hex_to_hex width n rest acc :
  of_hex (String.append (to_hex width n) rest) acc
  = of_hex rest (acc * 16 ^ N.of_nat width + n mod 16 ^ N.of_nat width)%N.
Proof.
  revert n rest acc. induction width as [|k IH]; intros n rest acc.
  - cbn [to_hex String.append N.of_nat]. f_equal.
    rewrite N.pow_0_r, N.mod_1_r. lia.
  - cbn [to_hex]. rewrite append_assoc_string, IH. cbn [String.append of_hex].
    rewrite hex_value_digit by (apply N.mod_lt; lia).
    f_equal. rewrite Nat2N.inj_succ, N.pow_succ_r'.
    rewrite (N.Div0.mod_mul_r n 16 (16 ^ N.of_nat k)). lia.
Qed.

(** [ObjectId(str(oid)) == oid] for every 12-byte value. *)
Lemma parse_str_ObjectId o :
  (o < 2 ^ 96)%N -> parse_ObjectId (str_ObjectId o) = Some o.
Proof.
  intros Ho. unfold parse_ObjectId, str_ObjectId.
  rewrite length_to_hex. cbn [Nat.eqb].
  assert (E : to_hex 24 o = String.append (to_hex 24 o) "").
  { generalize (to_hex 24 o). induction s as [|c s IH]; cbn; congruence. }
  rewrite E, of_hex_to_hex. cbn [of_hex]. f_equal.
  change (16 ^ N.of_nat 24)%N with (2 ^ 96)%N.
  rewrite N.mod_small by exact Ho. lia.
Qed.

(** ** The scenario of the specification, run *)

(** A validated body carries one of the two actions. *)
Lemma ApproveBody_valid_cases body :
  ApproveBody.valid body = true ->
  ApproveBody.action body = "approve" \/ ApproveBody.action body = "reject".
Proof.
  unfold ApproveBody.valid. intros H. apply orb_true_iff in H.
  destruct H as [H | H]; apply String.eqb_eq in H; tauto.
Qed.

(** Created: [pending_manager], no approvals.  After the manager:
    [pending_accountant], one.  After the accountant: [approved], two.  A
    further approve: still [approved], three. *)
Example scenario_runs :
  exists w' created first second third,
    scenario demo_world = (w', Return (created, first, second, third)) /\
    summary created = ("pending_manager", 0) /\
    summary first = ("pending_accountant", 1) /\
    summary second = ("approved", 2) /\
    summary third = ("approved", 3).
Proof.
  do 5 eexists. split; [vm_compute; reflexivity|].
  repeat split.
Qed.

(** * Further properties of the handlers *)

(** ** Authentication failures *)

(** X1.  A request without an Authorization header, or with one that does
    not start with [bearer ] in some letter case, is refused with 401 before
    the database is looked at; a bare token is such a header. *)
Theorem no_bearer_scheme_not_authenticated w authorization :
  (forall a, authorization = Some a ->
             Str.startswith (Str.lower a) "bearer " = false) ->
  get_current_user authorization w
  = (w, Raise (HTTPException 401 "Not authenticated")).
Proof.
  intros H. unfold get_current_user.
  destruct authorization as [a|]; [|reflexivity].
  now rewrite (H a eq_refl), orb_true_r.
Qed.

Lemma no_bearer_scheme_not_authenticated_witness :
  find (fun s => String.eqb (Session.token s) "token-eve")
    (c_session (db demo_world)) <> None /\
  get_current_user (Some "token-eve") demo_world
  = (demo_world, Raise (HTTPException 401 "Not authenticated")).
Proof.
  split; [discriminate|].
  apply (no_bearer_scheme_not_authenticated demo_world (Some "token-eve")).
  intros a E. injection E as <-. reflexivity.
Defined.

Lemma get_current_user_no_session w token :
  find (fun s => String.eqb (Session.token s) token) (c_session (db w))
  = None ->
  get_current_user (Some (String.append "Bearer " token)) w
  = (w, Raise (HTTPException 401 "Invalid session")).
Proof.
  intros Hnone.
  destruct (bearer_header token) as [Hscheme Hsplit].
  unfold get_current_user. cbv zeta in Hscheme, Hsplit.
  rewrite Hscheme, Hsplit.
  unfold bind, find_one. cbn [docs coll_session].
  now rewrite Hnone.
Qed.

(** X2.  With a bearer header whose token no session has, the request is
    refused with 401 "Invalid session" and nothing is written; so is every
    endpoint behind [require_roles], whatever roles it asks for. *)
Theorem unknown_token_invalid_session w token roles :
  find (fun s => String.eqb (Session.token s) token) (c_session (db w))
  = None ->
  get_current_user (Some (String.append "Bearer " token)) w
  = (w, Raise (HTTPException 401 "Invalid session")) /\
  require_roles roles (Some (String.append "Bearer " token)) w
  = (w, Raise (HTTPException 401 "Invalid session")).
Proof.
  intros Hnone. pose proof (get_current_user_no_session w token Hnone) as H.
  split; [exact H|]. unfold require_roles, bind. now rewrite H.
Qed.

Lemma unknown_token_invalid_session_witness :
  get_current_user (Some "Bearer token-bob") demo_world
  = (demo_world, Raise (HTTPException 401 "Invalid session")).
Proof.
  exact (proj1 (unknown_token_invalid_session demo_world "token-bob" []
                  eq_refl)).
Defined.

(** ** The bearer scheme in any letter case *)

Lemma lower_ascii_space c :
  Ascii.eqb (Str.lower_ascii c) " "%char = Ascii.eqb c " "%char.
Proof.
  destruct c as [[] [] [] [] [] [] [] []]; reflexivity.
Qed.

Lemma no_space_lower s : no_space (Str.lower s) = no_space s.
Proof.
  induction s as [|c s IH]; cbn; [reflexivity|].
  now rewrite lower_ascii_space, IH.
Qed.

Lemma lower_append s1 s2 :
  Str.lower (String.append s1 s2)
  = String.append (Str.lower s1) (Str.lower s2).
Proof. induction s1 as [|c s1 IH]; cbn; [reflexivity | now rewrite IH]. Qed.

(** [split(" ", 1)] cuts after a scheme that has no space in it. *)
Lemma split_after_scheme scheme token :
  no_space scheme = true ->
  Str.split_space_1 (String.append scheme (String " "%char token))
  = [scheme; token].
Proof.
  induction scheme as [|c s IH]; cbn; [reflexivity|].
  intros H. apply andb_true_iff in H. destruct H as [Hc Hs].
  apply negb_true_iff in Hc. rewrite Hc, (IH Hs). reflexivity.
Qed.

(** X3.  The scheme is matched without regard to letter case: a header
    [<scheme> <token>] whose scheme is [bearer] in any mix of cases is
    answered exactly as [Bearer <token>] is. *)
Theorem bearer_scheme_any_case w scheme token :
  Str.lower scheme = "bearer" ->
  get_current_user
    (Some (String.append scheme (String " "%char token))) w
  = get_current_user (Some (String.append "Bearer " token)) w.
Proof.
  intros Hscheme.
  assert (Hns : no_space scheme = true).
  { now rewrite <- no_space_lower, Hscheme. }
  destruct (bearer_header token) as [Hb Hsplit]. cbv zeta in Hb, Hsplit.
  unfold get_current_user. rewrite Hb, Hsplit.
  rewrite (split_after_scheme _ _ Hns). cbn [nth_error].
  rewrite lower_append, Hscheme.
  destruct scheme as [|c s]; [discriminate Hscheme|].
  cbn. unfold Str.startswith. cbn.
  now destruct (Str.lower token).
Qed.

Lemma bearer_scheme_any_case_witness :
  get_current_user (Some "bEaReR token-ann") demo_world
  = (demo_world, Return ann).
Proof.
  exact (eq_trans
           (bearer_scheme_any_case demo_world "bEaReR" "token-ann" eq_refl)
           eq_refl).
Defined.

(** ** Login and registration failures *)

(** X4.  Login answers an unknown email and a wrong password alike: 401
    "Invalid credentials", with nothing written, so the response does not
    tell whether the email is registered. *)
Theorem login_failure_is_uniform w body :
  (forall u,
     find (fun u => String.eqb (User.email u) (LoginBody.email body))
       (c_user (db w)) = Some u ->
     User.password u <> LoginBody.password body) ->
  login body w = (w, Raise (HTTPException 401 "Invalid credentials")).
Proof.
  intros H. unfold login, bind, find_one. cbn [docs coll_user].
  destruct (find _ (c_user (db w))) as [u|]; [|reflexivity].
  specialize (H u eq_refl). apply String.eqb_neq in H. now rewrite H.
Qed.

Lemma login_failure_is_uniform_witness :
  login (LoginBody.mk "bob@intrack.io" "engineer-pw") demo_world
  = (demo_world, Raise (HTTPException 401 "Invalid credentials")) /\
  login (LoginBody.mk "eve@intrack.io" "Engineer-pw") demo_world
  = (demo_world, Raise (HTTPException 401 "Invalid credentials")).
Proof.
  split.
  - apply (login_failure_is_uniform demo_world
             (LoginBody.mk "bob@intrack.io" "engineer-pw")).
    intros u E. discriminate E.
  - apply (login_failure_is_uniform demo_world
             (LoginBody.mk "eve@intrack.io" "Engineer-pw")).
    intros u E. injection E as <-. discriminate.
Defined.

(** X5.  [register] refuses a role outside [ALLOWED_ROLES] with 400, and
    does so before it looks the email up; it refuses an email some user has
    with 409.  Neither refusal writes anything. *)
Theorem register_refusals w body :
  (~ In (RegisterBody.role body) ALLOWED_ROLES ->
   register body w = (w, Raise (HTTPException 400 "Invalid role"))) /\
  (In (RegisterBody.role body) ALLOWED_ROLES ->
   forall u,
     find (fun u => String.eqb (User.email u) (RegisterBody.email body))
       (c_user (db w)) = Some u ->
     register body w
     = (w, Raise (HTTPException 409 "Email already registered"))).
Proof.
  split.
  - intros Hrole. apply mem_not_In in Hrole.
    unfold register. now rewrite Hrole.
  - intros Hrole u Hu. apply mem_In in Hrole.
    unfold register. rewrite Hrole. cbn [negb].
    unfold bind, find_one. cbn [docs coll_user]. now rewrite Hu.
Qed.

(** ** Register, then log in *)

Lemma register_run body w :
  In (RegisterBody.role body) ALLOWED_ROLES ->
  find (fun u => String.eqb (User.email u) (RegisterBody.email body))
    (c_user (db w)) = None ->
  oid_fresh coll_user w ->
  register body w
  = (world_after_register body w,
     Return (UserOut.mk (str_ObjectId (peek (oids w)))
               (RegisterBody.name body) (RegisterBody.email body)
               (RegisterBody.role body))).
Proof.
  intros Hrole Hemail Hfresh. apply mem_In in Hrole.
  unfold register. rewrite Hrole. cbn [negb].
  unfold bind, find_one at 1. cbn [docs coll_user]. rewrite Hemail.
  unfold _now. rewrite insert_one_fresh by exact Hfresh.
  reflexivity.
Qed.

(** X6.  A user who has just registered can log in with the email and
    password they gave, and [/auth/me] with the token of that login returns
    exactly what [register] returned: the new id and the name, email and
    role of the request.  (The ObjectIds and the uuid drawn are not taken.) *)
Theorem register_login_me w body :
  In (RegisterBody.role body) ALLOWED_ROLES ->
  find (fun u => String.eqb (User.email u) (RegisterBody.email body))
    (c_user (db w)) = None ->
  oid_fresh coll_user w ->
  find (by_id coll_session (peek (advance (oids w)))) (c_session (db w))
  = None ->
  token_fresh w ->
  exists w1 registered w2 logged,
    register body w = (w1, Return registered) /\
    login (LoginBody.mk (RegisterBody.email body)
             (RegisterBody.password body)) w1
    = (w2, Return logged) /\
    LoginOut.user logged = registered /\
    GET_auth_me (Some (String.append "Bearer " (LoginOut.token logged))) w2
    = (w2, Return registered).
Proof.
  intros Hrole Hemail Hfresh Hsession Htoken.
  set (u := new_user body w). set (w1 := world_after_register body w).
  assert (Hu : find (fun x => String.eqb (User.email x)
                                (RegisterBody.email body))
                 (c_user (db w1)) = Some u).
  { unfold w1, world_after_register. cbn [db store coll_user c_user].
    rewrite find_app_none by exact Hemail.
    cbn. now rewrite String.eqb_refl. }
  assert (Hid : find (by_id coll_user (User._id u)) (c_user (db w1)) = Some u).
  { unfold w1, world_after_register. cbn [db store coll_user c_user].
    rewrite find_app_none by exact Hfresh.
    cbn. unfold by_id. cbn. now rewrite N.eqb_refl. }
  exists w1, (user_out u), (world_after_login u w1),
         (LoginOut.mk (peek (uuids w1)) (user_out u)).
  split; [now apply register_run|].
  split; [apply login_run; [exact Hu | reflexivity | exact Hsession]|].
  split; [reflexivity|].
  unfold GET_auth_me, bind. cbn [LoginOut.token].
  rewrite (get_current_user_run (peek (uuids w1)) (new_session u w1) u).
  - reflexivity.
  - unfold world_after_login. cbn [db store coll_session c_session].
    rewrite find_app_none by exact Htoken.
    cbn. now rewrite String.eqb_refl.
  - exact Hid.
Qed.

Lemma register_login_me_witness :
  exists w1 registered w2 logged,
    register (RegisterBody.mk "Bob" "bob@intrack.io" "bob-pw" "Engineer")
      demo_world = (w1, Return registered) /\
    login (LoginBody.mk "bob@intrack.io" "bob-pw") w1 = (w2, Return logged) /\
    GET_auth_me (Some (String.append "Bearer " (LoginOut.token logged))) w2
    = (w2, Return registered) /\
    registered
    = UserOut.mk "000000000000000000000100" "Bob" "bob@intrack.io" "Engineer".
Proof.
  destruct (register_login_me demo_world
              (RegisterBody.mk "Bob" "bob@intrack.io" "bob-pw" "Engineer")
              (or_intror (or_intror (or_introl eq_refl)))
              eq_refl eq_refl eq_refl eq_refl)
    as (w1 & registered & w2 & logged & Hreg & Hlog & _ & Hme).
  exists w1, registered, w2, logged. repeat split; try assumption.
  pose proof Hreg as Hreg'. vm_compute in Hreg'.
  now injection Hreg' as _ <-.
Defined.

(** ** Headers that pass the scheme test can be split *)

Lemma prefix_has_space p s :
  String.prefix p s = true -> no_space p = false -> no_space s = false.
Proof.
  revert s. induction p as [|c p IH]; intros s; [discriminate 2|].
  destruct s as [|c' s]; cbn; [discriminate|].
  destruct (ascii_dec c c') as [<-|]; [|discriminate].
  intros Hp Hs. apply andb_false_iff in Hs. apply andb_false_iff.
  destruct Hs as [Hc | Hs]; [now left | right; now apply IH].
Qed.

Lemma split_with_space s :
  no_space s = false ->
  exists token, nth_error (Str.split_space_1 s) 1 = Some token.
Proof.
  induction s as [|c s IH]; cbn; [discriminate|].
  destruct (Ascii.eqb c " "%char); cbn.
  - intros _. now exists s.
  - intros Hs. destruct (IH Hs) as (token & Htoken).
    destruct (Str.split_space_1 s) as [|hd tl]; [discriminate Htoken|].
    now exists token.
Qed.

(** A header that starts with [bearer ] has a second part: the index [1]
    of the source is always in range. *)
Lemma bearer_header_splits a :
  Str.startswith (Str.lower a) "bearer " = true ->
  exists token, nth_error (Str.split_space_1 a) 1 = Some token.
Proof.
  intros H. apply split_with_space. rewrite <- no_space_lower.
  now apply (prefix_has_space "bearer ").
Qed.

(** X7.  Whatever the Authorization header, [get_current_user] returns a
    user or raises 401: no header makes it fail in another way, and it never
    writes. *)
Theorem get_current_user_returns_or_401 w authorization :
  (exists user, get_current_user authorization w = (w, Return user)) \/
  (exists detail,
     get_current_user authorization w
     = (w, Raise (HTTPException 401 detail))).
Proof.
  unfold get_current_user.
  destruct authorization as [a|]; [|right; eexists; reflexivity].
  destruct (String.eqb a "") eqn:Ea; cbn [orb];
    [right; eexists; reflexivity|].
  destruct (Str.startswith (Str.lower a) "bearer ") eqn:Hb; cbn [negb];
    [|right; eexists; reflexivity].
  destruct (bearer_header_splits a Hb) as (token & ->).
  unfold bind, find_one.
  destruct (find _ (docs coll_session (db w))) as [session|];
    [|right; eexists; reflexivity].
  destruct (find _ (docs coll_user (db w))) as [user|];
    [left | right]; eexists; reflexivity.
Qed.

(** ** Logout *)

Lemma remove_first_no_match {D} (query : D -> bool) (l : list D) :
  find query l = None -> remove_first query l = l.
Proof.
  induction l as [|d l IH]; cbn; [reflexivity|].
  destruct (query d); [discriminate|]. intros H. now rewrite IH.
Qed.

Lemma remove_first_app {D} (query : D -> bool) (l1 l2 : list D) :
  find query l1 = None ->
  remove_first query (l1 ++ l2) = l1 ++ remove_first query l2.
Proof.
  induction l1 as [|d l1 IH]; cbn; [reflexivity|].
  destruct (query d); [discriminate|]. intros H. now rewrite IH.
Qed.

Lemma find_remove_first_other {D} (query other : D -> bool) (l : list D) :
  (forall d, query d = true -> other d = false) ->
  find other (remove_first query l) = find other l.
Proof.
  intros Hdisj. induction l as [|d l IH]; cbn; [reflexivity|].
  destruct (query d) eqn:Hq; cbn.
  - now rewrite (Hdisj d Hq).
  - now rewrite IH.
Qed.

Lemma logout_run token w :
  logout (Some (String.append "Bearer " token)) w
  = (set_db
       (store coll_session
          (remove_first (fun s => String.eqb (Session.token s) token)
             (c_session (db w)))
          (db w)) w,
     Return (OkOut.mk true)).
Proof.
  destruct (bearer_header token) as [Hscheme Hsplit].
  cbv zeta in Hscheme, Hsplit.
  unfold logout. rewrite Hscheme, Hsplit. reflexivity.
Qed.

Lemma length_remove_first {D} (query : D -> bool) (l : list D) :
  List.length (remove_first query l) <= List.length l.
Proof.
  induction l as [|d l IH]; cbn; [lia|]. destruct (query d); cbn; lia.
Qed.

(** X8.  Logging out with the token of a login ends that session: the
    session collection is as it was before the login, and [/auth/me] with
    the token is refused with 401 "Invalid session". *)
Theorem logout_ends_the_session w body u :
  find (fun u => String.eqb (User.email u) (LoginBody.email body))
    (c_user (db w)) = Some u ->
  User.password u = LoginBody.password body ->
  oid_fresh coll_session w ->
  token_fresh w ->
  exists w1 logged w2,
    login body w = (w1, Return logged) /\
    logout (Some (String.append "Bearer " (LoginOut.token logged))) w1
    = (w2, Return (OkOut.mk true)) /\
    c_session (db w2) = c_session (db w) /\
    GET_auth_me (Some (String.append "Bearer " (LoginOut.token logged))) w2
    = (w2, Raise (HTTPException 401 "Invalid session")).
Proof.
  intros Hu Hpw Hfresh Htoken.
  exists (world_after_login u w),
         (LoginOut.mk (peek (uuids w)) (user_out u)).
  eexists.
  split; [now apply login_run|].
  cbn [LoginOut.token].
  split; [apply logout_run|].
  assert (Hsessions :
    remove_first (fun s => String.eqb (Session.token s) (peek (uuids w)))
      (c_session (db (world_after_login u w)))
    = c_session (db w)).
  { unfold world_after_login. cbn [db store coll_session c_session].
    rewrite remove_first_app by exact Htoken.
    cbn. rewrite String.eqb_refl. apply app_nil_r. }
  split.
  - cbn [set_db db store coll_session c_session]. exact Hsessions.
  - unfold GET_auth_me, bind.
    rewrite get_current_user_no_session; [reflexivity|].
    cbn [set_db db store coll_session c_session].
    rewrite Hsessions. exact Htoken.
Qed.

Lemma logout_ends_the_session_witness :
  exists w1 logged w2,
    login (LoginBody.mk "ada@intrack.io" "admin-pw") demo_world
    = (w1, Return logged) /\
    logout (Some (String.append "Bearer " (LoginOut.token logged))) w1
    = (w2, Return (OkOut.mk true)) /\
    c_session (db w2) = demo_sessions /\
    GET_auth_me (Some (String.append "Bearer " (LoginOut.token logged))) w2
    = (w2, Raise (HTTPException 401 "Invalid session")).
Proof.
  exact (logout_ends_the_session demo_world
           (LoginBody.mk "ada@intrack.io" "admin-pw")
           (User.mk 4 "Ada" "ada@intrack.io" "admin-pw" "Admin" t0 t0 "active")
           eq_refl eq_refl eq_refl eq_refl).
Defined.

(** The first match of a query splits the list it is removed from. *)
Lemma remove_first_split {D} (query : D -> bool) (l : list D) :
  find query l = None /\ remove_first query l = l \/
  exists before x after,
    find query l = Some x /\
    l = before ++ x :: after /\
    remove_first query l = before ++ after /\
    find query before = None.
Proof.
  induction l as [|d l IH]; cbn; [now left|].
  destruct (query d) eqn:Hd.
  - right. exists [], d, l. now repeat split.
  - destruct IH as [[Hnone Hsame] | (before & x & after & Hx & -> & Hrm & Hb)].
    + left. split; [exact Hnone | now rewrite Hsame].
    + right. exists (d :: before), x, after. cbn. rewrite Hd, Hrm.
      now repeat split.
Qed.

(** X9.  [logout] answers [ok] to every header and never fails.  It leaves
    the users, expenses and leaves alone and removes at most one session,
    keeping the others in their order: with [Bearer <token>] the first
    session that has the token, and that one only.  Without a bearer
    header, or with a token no session has, the world is exactly as
    before. *)
Theorem logout_always_ok w authorization :
  exists w',
    logout authorization w = (w', Return (OkOut.mk true)) /\
    c_user (db w') = c_user (db w) /\
    c_expense (db w') = c_expense (db w) /\
    c_leave (db w') = c_leave (db w) /\
    (exists before removed after,
       c_session (db w) = before ++ removed ++ after /\
       c_session (db w') = before ++ after /\
       List.length removed <= 1) /\
    (forall token s,
       authorization = Some (String.append "Bearer " token) ->
       find (fun s => String.eqb (Session.token s) token) (c_session (db w))
       = Some s ->
       exists before after,
         c_session (db w) = before ++ s :: after /\
         c_session (db w') = before ++ after /\
         find (fun s => String.eqb (Session.token s) token) before = None) /\
    ((forall a, authorization = Some a ->
                Str.startswith (Str.lower a) "bearer " = false) ->
     w' = w) /\
    (forall token,
       authorization = Some (String.append "Bearer " token) ->
       find (fun s => String.eqb (Session.token s) token) (c_session (db w))
       = None ->
       w' = w).
Proof.
  assert (Hkept : exists before removed after : list Session.t,
            c_session (db w) = before ++ removed ++ after /\
            c_session (db w) = before ++ after /\
            List.length removed <= 1).
  { exists [], [], (c_session (db w)). cbn. repeat split. lia. }
  unfold logout.
  destruct authorization as [a|].
  - destruct (String.eqb a "") eqn:Ea; cbn [orb].
    { exists w. unfold ret. apply String.eqb_eq in Ea. subst a.
      repeat split; try assumption; try reflexivity.
      intros token s E. discriminate E. }
    destruct (Str.startswith (Str.lower a) "bearer ") eqn:Hb; cbn [negb].
    + destruct (bearer_header_splits a Hb) as (token & Hsplit).
      rewrite Hsplit. eexists. split; [reflexivity|].
      cbn [fst set_db db store coll_session c_user c_expense c_leave
           c_session].
      change (docs coll_session (db w)) with (c_session (db w)).
      split; [reflexivity|]. split; [reflexivity|]. split; [reflexivity|].
      assert (Htoken : forall token',
                a = String.append "Bearer " token' -> token' = token).
      { intros token' ->.
        destruct (bearer_header token') as [_ Hsplit']. cbv zeta in Hsplit'.
        assert (E : Some token = Some token').
        { rewrite <- Hsplit. exact Hsplit'. }
        now injection E. }
      destruct (remove_first_split
                  (fun s => String.eqb (Session.token s) token)
                  (c_session (db w)))
        as [[Hnone Hsame] | (before & x & after & Hx & Hl & Hrm & Hbefore)].
      * rewrite Hsame. split; [exact Hkept|]. split; [|split].
        -- intros token' s E Hs. injection E as E.
           rewrite (Htoken token' E) in Hs. congruence.
        -- intros H. specialize (H a eq_refl). congruence.
        -- intros _ _ _. clear.
           now destruct w as [[users sessions expenses leaves] c u o].
      * rewrite Hrm. split; [|split; [|split]].
        -- exists before, [x], after. rewrite Hl. cbn. repeat split. lia.
        -- intros token' s E Hs. injection E as E.
           rewrite (Htoken token' E) in *.
           assert (s = x) as -> by congruence.
           exists before, after. repeat split; assumption.
        -- intros H. specialize (H a eq_refl). congruence.
        -- intros token' E Hnone. injection E as E.
           rewrite (Htoken token' E) in Hnone. congruence.
    + exists w. unfold ret.
      repeat split; try assumption; try reflexivity.
      intros token s E _. injection E as E.
      destruct (bearer_header token) as [Hscheme _]. cbv zeta in Hscheme.
      cbn [String.append] in Hscheme.
      rewrite <- E, Hb, orb_true_r in Hscheme. discriminate Hscheme.
  - exists w. unfold ret.
    repeat split; try assumption; try reflexivity.
    intros token s E. discriminate E.
Qed.

(** The answer of [get_current_user] depends on the world through the
    session of the token and the user collection only. *)
Lemma get_current_user_depends_on authorization w1 w2 :
  c_user (db w1) = c_user (db w2) ->
  (forall token,
     nth_error (Str.split_space_1 authorization) 1 = Some token ->
     find (fun s => String.eqb (Session.token s) token) (c_session (db w1))
     = find (fun s => String.eqb (Session.token s) token)
         (c_session (db w2))) ->
  snd (get_current_user (Some authorization) w1)
  = snd (get_current_user (Some authorization) w2).
Proof.
  intros Hu Hs. unfold get_current_user.
  destruct (String.eqb authorization ""
            || negb (Str.startswith (Str.lower authorization) "bearer "));
    [reflexivity|].
  destruct (nth_error (Str.split_space_1 authorization) 1) as [token|];
    [|reflexivity].
  unfold bind, find_one. cbn [docs coll_session coll_user].
  rewrite (Hs token eq_refl).
  destruct (find _ (c_session (db w2))) as [session|]; [|reflexivity].
  cbv beta. rewrite Hu.
  destruct (find _ (c_user (db w2))) as [user|]; reflexivity.
Qed.

(** X10.  Logging out one token does not disturb another: a request with
    any other bearer token is answered after the logout as it was before. *)
Theorem logout_keeps_other_sessions w token other :
  other <> token ->
  snd (get_current_user (Some (String.append "Bearer " other))
         (fst (logout (Some (String.append "Bearer " token)) w)))
  = snd (get_current_user (Some (String.append "Bearer " other)) w).
Proof.
  intros Hne. rewrite logout_run. cbn [fst].
  apply get_current_user_depends_on; [reflexivity|].
  intros tok Htok.
  destruct (bearer_header other) as [_ Hsplit]. cbv zeta in Hsplit.
  assert (E : Some tok = Some other) by (rewrite <- Htok; exact Hsplit).
  injection E as ->.
  cbn [set_db db store coll_session c_session].
  apply find_remove_first_other.
  intros s Hs. apply String.eqb_eq in Hs. apply String.eqb_neq. congruence.
Qed.

Lemma logout_keeps_other_sessions_witness :
  snd (get_current_user (Some "Bearer token-max")
         (fst (logout (Some "Bearer token-eve") demo_world)))
  = Return max /\
  snd (get_current_user (Some "Bearer token-eve")
         (fst (logout (Some "Bearer token-eve") demo_world)))
  = Raise (HTTPException 401 "Invalid session").
Proof.
  split; [|reflexivity].
  refine (eq_trans
            (logout_keeps_other_sessions demo_world "token-eve" "token-max" _)
            eq_refl).
  discriminate.
Defined.

(** ** What a request can do to the collections *)

Section Preserves.
Context {X : Type} (f : Database -> X).

Lemma preserves_ret {A} (a : A) : preserves f (ret a).
Proof. intros w. reflexivity. Qed.

Lemma preserves_raise {A} e : preserves f (@raise A e).
Proof. intros w. reflexivity. Qed.

Lemma preserves_bind {A B} (m : M A) (k : A -> M B) :
  preserves f m -> (forall a, preserves f (k a)) -> preserves f (bind m k).
Proof.
  intros Hm Hk w. unfold bind. specialize (Hm w).
  destruct (m w) as [w1 [a|e]]; cbn in Hm.
  - now rewrite Hk.
  - exact Hm.
Qed.

Lemma preserves_now : preserves f _now.
Proof. intros w. reflexivity. Qed.

Lemma preserves_uuid4 : preserves f uuid4.
Proof. intros w. reflexivity. Qed.

Lemma preserves_ObjectId s : preserves f (ObjectId s).
Proof. intros w. unfold ObjectId. now destruct (parse_ObjectId s). Qed.

Lemma preserves_find_one {D} (c : Collection D) q : preserves f (find_one c q).
Proof. intros w. reflexivity. Qed.

Lemma preserves_update_one {D} (c : Collection D) q u :
  (forall l d, f (store c l d) = f d) -> preserves f (update_one c q u).
Proof. intros Hc w. cbn. apply Hc. Qed.

Lemma preserves_delete_one {D} (c : Collection D) q :
  (forall l d, f (store c l d) = f d) -> preserves f (delete_one c q).
Proof. intros Hc w. cbn. apply Hc. Qed.

Lemma preserves_insert_one {D} (c : Collection D) doc :
  (forall l d, f (store c l d) = f d) -> preserves f (insert_one c doc).
Proof.
  intros Hc w. unfold insert_one.
  destruct (existsb _ _); cbn; [reflexivity | apply Hc].
Qed.

End Preserves.

Ltac preserving :=
  repeat first
    [ apply preserves_ret | apply preserves_raise | apply preserves_now
    | apply preserves_uuid4 | apply preserves_ObjectId
    | apply preserves_find_one
    | apply preserves_update_one; reflexivity
    | apply preserves_insert_one; reflexivity
    | apply preserves_delete_one; reflexivity
    | apply preserves_bind; [|intro]
    | match goal with
      | |- preserves _ (match ?x with _ => _ end) => destruct x
      end ].

Lemma require_roles_reads_only roles authorization w :
  fst (require_roles roles authorization w) = w.
Proof.
  unfold require_roles, bind.
  pose proof (get_current_user_reads_only authorization w) as H.
  destruct (get_current_user authorization w) as [w1 [user|e]]; cbn in H;
    subst w1; [|reflexivity].
  now destruct (negb _).
Qed.

Lemma preserves_expense_register body : preserves c_expense (register body).
Proof. unfold register. preserving. Qed.

Lemma preserves_expense_login body : preserves c_expense (login body).
Proof. unfold login. preserving. Qed.

Lemma preserves_expense_logout a : preserves c_expense (logout a).
Proof. unfold logout. preserving. Qed.

Lemma preserves_expense_request_leave payload user :
  preserves c_expense (request_leave payload user).
Proof. unfold request_leave. preserving. Qed.

Lemma preserves_expense_approve_leave leave_id body user :
  preserves c_expense (approve_leave leave_id body user).
Proof. unfold approve_leave. preserving. Qed.

Lemma in_roles_dec role roles :
  Str.mem role roles = true /\ In role roles
  \/ Str.mem role roles = false /\ ~ In role roles.
Proof.
  destruct (Str.mem role roles) eqn:E.
  - left. split; [reflexivity | now apply mem_In].
  - right. split; [reflexivity | now apply mem_not_In].
Qed.

Lemma approve_expense_not_found expense_id body user w oid :
  parse_ObjectId expense_id = Some oid ->
  stored_expense w oid = None ->
  approve_expense expense_id body user w
  = (w, Raise (HTTPException 404 "Expense not found")).
Proof.
  intros Hid Hnone. unfold stored_expense in Hnone.
  unfold approve_expense, ObjectId, bind. rewrite Hid.
  unfold ret, find_one. cbn [docs coll_expense]. now rewrite Hnone.
Qed.

(** What [approve_expense] does to the expense collection. *)
Lemma approve_expense_effect expense_id body user w :
  expense_effect w
    (c_expense (db (fst (approve_expense expense_id body user w)))).
Proof.
  destruct (parse_ObjectId expense_id) as [oid|] eqn:Hid.
  - destruct (stored_expense w oid) as [exp|] eqn:Hexp.
    + run_decision Hid Hexp.
      destruct (String.eqb (Expense.status exp) "pending_manager") eqn:E1;
        destruct (String.eqb (Expense.status exp) "pending_accountant")
          eqn:E2;
        destruct (in_roles_dec (CurrentUser.role user) ["Manager"; "Admin"])
          as [[-> H1] | [-> H1]];
        destruct (in_roles_dec (CurrentUser.role user)
                    ["Accountant"; "Admin"]) as [[-> H2] | [-> H2]];
        cbn [andb negb fst]; try (apply effect_none; reflexivity);
        apply String.eqb_eq in E1 || apply String.eqb_neq in E1;
        apply String.eqb_eq in E2 || apply String.eqb_neq in E2;
        apply (effect_decided w _ oid exp user body Hexp);
        try reflexivity; split; intros E; congruence.
    + apply effect_none.
      now rewrite (approve_expense_not_found _ body user _ _ Hid Hexp).
  - apply effect_none. now rewrite approve_expense_unparsed.
Qed.

Lemma preserves_get_current_user {X} (f : Database -> X) authorization :
  preserves f (get_current_user authorization).
Proof. intros w. now rewrite get_current_user_reads_only. Qed.

Lemma preserves_require_roles {X} (f : Database -> X) roles authorization :
  preserves f (require_roles roles authorization).
Proof. intros w. now rewrite require_roles_reads_only. Qed.

(** What [create_expense] does to the expense collection. *)
Lemma create_expense_effect payload user w :
  expense_effect w (c_expense (db (fst (create_expense payload user w)))).
Proof.
  unfold create_expense, bind, _now, insert_one.
  cbn [db clock uuids oids docs coll_expense].
  destruct (existsb _ (c_expense (db w))) eqn:E.
  - now apply effect_none.
  - apply (effect_created w _ payload user); [|reflexivity].
    now apply existsb_false_find_none.
Qed.

(** Every request leaves the expense collection as it was, appends one new
    expense to it, or writes one accepted decision to one expense. *)
Lemma serve_expense_effect r w :
  expense_effect w (c_expense (db (serve r w))).
Proof.
  destruct r; cbn [serve].
  - apply effect_none, preserves_expense_register.
  - apply effect_none, preserves_expense_login.
  - apply effect_none. unfold GET_auth_me.
    apply preserves_bind; [apply preserves_get_current_user|].
    intros a v. reflexivity.
  - unfold POST_expenses, bind.
    pose proof (require_roles_reads_only
                  ["Engineer"; "Manager"; "Admin"] authorization w) as H.
    destruct (require_roles _ authorization w) as [w1 [user|e]]; cbn in H;
      subst w1; [apply create_expense_effect | now apply effect_none].
  - unfold POST_expenses_approve, bind.
    pose proof (get_current_user_reads_only authorization w) as H.
    destruct (get_current_user authorization w) as [w1 [user|e]]; cbn in H;
      subst w1; [apply approve_expense_effect | now apply effect_none].
  - apply effect_none. unfold POST_leaves.
    apply preserves_bind; [apply preserves_require_roles|].
    intro. apply preserves_expense_request_leave.
  - apply effect_none. unfold POST_leaves_approve.
    apply preserves_bind; [apply preserves_require_roles|].
    intro. apply preserves_expense_approve_leave.
  - apply effect_none, preserves_expense_logout.
Qed.

Lemma find_app_some {D} (query : D -> bool) (l1 l2 : list D) d :
  find query l1 = Some d -> find query (l1 ++ l2) = Some d.
Proof.
  induction l1 as [|x l1 IH]; simpl; [discriminate|].
  destruct (query x); [trivial | exact IH].
Qed.

(** What a request does to one stored expense: nothing, or it writes the
    decision of a user who passed the role tests. *)
Lemma serve_stored_expense r w oid exp :
  stored_expense w oid = Some exp ->
  stored_expense (serve r w) oid = Some exp \/
  exists user body,
    may_decide exp user /\
    stored_expense (serve r w) oid = Some (decided exp user body w).
Proof.
  intros Hexp.
  assert (Hgoal : forall l',
            expense_effect w l' ->
            find (by_id coll_expense oid) l' = Some exp \/
            exists user body,
              may_decide exp user /\
              find (by_id coll_expense oid) l'
              = Some (decided exp user body w));
    [|exact (Hgoal _ (serve_expense_effect r w))].
  intros l' Heffect. destruct Heffect
    as [-> | payload user _ -> | oid0 exp0 user body Hexp0 Hgate ->].
  - now left.
  - left. now apply find_app_some.
  - destruct (N.eq_dec oid0 oid) as [-> | Hne].
    + right. exists user, body.
      assert (exp0 = exp) as -> by congruence.
      split; [exact Hgate|].
      now apply (stored_expense_after_decision oid exp user body w).
    + left. unfold world_after_decision. cbn [db store coll_expense c_expense].
      rewrite find_update_first_other; [exact Hexp | reflexivity|].
      intros d Hd. unfold by_id in *.
      apply N.eqb_eq in Hd. apply N.eqb_neq. congruence.
Qed.

(** ** An expense under arbitrary requests *)

(** X11.  The approvals of an expense are append-only: whatever requests
    are served, in whatever order, the expense is still stored under its id
    and its approvals are the approvals it had, followed by at most one new
    entry per request. *)
Theorem approvals_only_grow rs w oid exp :
  stored_expense w oid = Some exp ->
  exists exp' added,
    stored_expense (serve_all rs w) oid = Some exp' /\
    Expense.approvals exp' = Expense.approvals exp ++ added /\
    List.length added <= List.length rs.
Proof.
  revert w exp. induction rs as [|r rs IH]; intros w exp Hexp.
  - exists exp, []. cbn. rewrite app_nil_r. repeat split; [assumption | lia].
  - cbn [serve_all fold_left].
    destruct (serve_stored_expense r w oid exp Hexp)
      as [H | (user & body & _ & H)];
      destruct (IH _ _ H) as (exp' & added & Hst & Happ & Hlen).
    + exists exp', added. repeat split; [assumption | assumption | cbn; lia].
    + exists exp', (entry_of user body w :: added).
      split; [assumption|]. split.
      * rewrite Happ. cbn. now rewrite <- app_assoc.
      * cbn. lia.
Qed.

Lemma approvals_only_grow_witness :
  exists exp' added,
    stored_expense
      (serve_all
         [ApproveExpense (Some "Bearer token-ann") "000000000000000000000011"
            (approve_ None);
          Logout (Some "Bearer token-ann");
          ApproveExpense (Some "Bearer token-eve") "000000000000000000000011"
            (reject_ None)]
         demo_world) 17 = Some exp' /\
    Expense.approvals exp' = [by_max] ++ added /\
    List.length added <= 3.
Proof.
  exact (approvals_only_grow _ demo_world 17%N
           (demo_expense 17 "pending_accountant" [by_max]) eq_refl).
Defined.

(** X12.  No request changes what an expense is about: its id, project,
    amount, currency, description, requester and creation time stay as
    they were, and the expense is never removed. *)
Theorem expense_identity_is_kept r w oid exp :
  stored_expense w oid = Some exp ->
  exists exp',
    stored_expense (serve r w) oid = Some exp' /\
    Expense._id exp' = Expense._id exp /\
    Expense.project_id exp' = Expense.project_id exp /\
    Expense.amount exp' = Expense.amount exp /\
    Expense.currency exp' = Expense.currency exp /\
    Expense.description exp' = Expense.description exp /\
    Expense.requested_by exp' = Expense.requested_by exp /\
    Expense.created_at exp' = Expense.created_at exp.
Proof.
  intros Hexp.
  destruct (serve_stored_expense r w oid exp Hexp)
    as [H | (user & body & _ & H)]; eexists; (split; [exact H|]);
    repeat split.
Qed.

Lemma expense_identity_is_kept_witness :
  exists exp',
    stored_expense
      (serve (ApproveExpense (Some "Bearer token-max")
                "000000000000000000000010" (reject_ (Some "too much")))
         demo_world) 16 = Some exp' /\
    Expense.amount exp' = 100.0%float /\
    Expense.requested_by exp' = "000000000000000000000001".
Proof.
  destruct (expense_identity_is_kept
              (ApproveExpense (Some "Bearer token-max")
                 "000000000000000000000010" (reject_ (Some "too much")))
              demo_world 16%N (demo_expense 16 "pending_manager" []) eq_refl)
    as (exp' & Hst & _ & _ & Hamount & _ & _ & Hby & _).
  exists exp'. repeat split; assumption.
Defined.

Lemma new_status_of_cases status action :
  new_status_of status action = status \/
  new_status_of status action = "rejected" /\ action = "reject" \/
  status = "pending_manager"
  /\ new_status_of status action = "pending_accountant"
  /\ action <> "reject" \/
  status = "pending_accountant" /\ new_status_of status action = "approved"
  /\ action <> "reject".
Proof.
  unfold new_status_of.
  destruct (String.eqb action "reject") eqn:Ea.
  - apply String.eqb_eq in Ea. tauto.
  - apply String.eqb_neq in Ea.
    destruct (String.eqb status "pending_manager") eqn:E1.
    + apply String.eqb_eq in E1. tauto.
    + destruct (String.eqb status "pending_accountant") eqn:E2.
      * apply String.eqb_eq in E2. tauto.
      * tauto.
Qed.

(** X13.  In one request the status of an expense stays, becomes
    [rejected], goes from [pending_manager] to [pending_accountant], or goes
    from [pending_accountant] to [approved]: it never skips the accountant
    and never returns to an earlier stage. *)
Theorem expense_status_steps r w oid exp :
  stored_expense w oid = Some exp ->
  exists exp',
    stored_expense (serve r w) oid = Some exp' /\
    (Expense.status exp' = Expense.status exp \/
     Expense.status exp' = "rejected" \/
     (Expense.status exp = "pending_manager"
      /\ Expense.status exp' = "pending_accountant") \/
     (Expense.status exp = "pending_accountant"
      /\ Expense.status exp' = "approved")).
Proof.
  intros Hexp.
  destruct (serve_stored_expense r w oid exp Hexp)
    as [H | (user & body & _ & H)]; eexists; (split; [exact H|]).
  - now left.
  - cbn [decided set_status_push_approval Expense.status].
    generalize (new_status_of_cases (Expense.status exp)
                  (ApproveBody.action body)).
    tauto.
Qed.

Lemma expense_status_steps_witness :
  exists exp',
    stored_expense
      (serve (ApproveExpense (Some "Bearer token-ada")
                "000000000000000000000010" (approve_ None))
         demo_world) 16 = Some exp' /\
    Expense.status exp' <> "approved".
Proof.
  destruct (expense_status_steps
              (ApproveExpense (Some "Bearer token-ada")
                 "000000000000000000000010" (approve_ None))
              demo_world 16%N (demo_expense 16 "pending_manager" []) eq_refl)
    as (exp' & Hst & Hstep).
  exists exp'. split; [assumption|].
  cbn in Hstep. intros E. rewrite E in Hstep.
  destruct Hstep as [H | [H | [[_ H] | [H _]]]]; discriminate H.
Defined.

(** X14.  [rejected] is final: once an expense is rejected, no sequence of
    requests gives it another status. *)
Theorem rejected_is_final rs w oid exp :
  stored_expense w oid = Some exp ->
  Expense.status exp = "rejected" ->
  exists exp',
    stored_expense (serve_all rs w) oid = Some exp' /\
    Expense.status exp' = "rejected".
Proof.
  revert w exp. induction rs as [|r rs IH]; intros w exp Hexp Hst.
  - now exists exp.
  - cbn [serve_all fold_left].
    destruct (serve_stored_expense r w oid exp Hexp)
      as [H | (user & body & _ & H)].
    + now apply (IH _ _ H).
    + apply (IH _ _ H).
      cbn [decided set_status_push_approval Expense.status].
      unfold new_status_of. rewrite Hst.
      now destruct (String.eqb (ApproveBody.action body) "reject").
Qed.

Lemma rejected_is_final_witness :
  exists exp',
    stored_expense
      (serve_all
         [ApproveExpense (Some "Bearer token-ada") "000000000000000000000013"
            (approve_ None);
          ApproveExpense (Some "Bearer token-ann") "000000000000000000000013"
            (approve_ (Some "please"))]
         demo_world) 19 = Some exp' /\
    Expense.status exp' = "rejected".
Proof.
  exact (rejected_is_final _ demo_world 19%N
           (demo_expense 19 "rejected" [no_by_max]) eq_refl eq_refl).
Defined.

(** X15.  An expense becomes [approved] in one way only: by a decision
    other than [reject], made by an Accountant or an Admin, on an expense
    that was [pending_accountant]; that decision is the entry appended. *)
Theorem approval_needs_the_accountant r w oid exp exp' :
  stored_expense w oid = Some exp ->
  stored_expense (serve r w) oid = Some exp' ->
  Expense.status exp <> "approved" ->
  Expense.status exp' = "approved" ->
  Expense.status exp = "pending_accountant" /\
  exists e,
    Expense.approvals exp' = Expense.approvals exp ++ [e] /\
    In (Approval.role e) ["Accountant"; "Admin"] /\
    Approval.action e <> "reject".
Proof.
  intros Hexp Hexp' Hbefore Hafter.
  destruct (serve_stored_expense r w oid exp Hexp)
    as [H | (user & body & [_ Hgate] & H)];
    rewrite H in Hexp'; injection Hexp' as <-; [congruence|].
  cbn [decided set_status_push_approval Expense.status] in Hafter.
  destruct (new_status_of_cases (Expense.status exp) (ApproveBody.action body))
    as [E | [[E _] | [(_ & E & _) | (Hst & _ & Hact)]]];
    try (rewrite E in Hafter; congruence).
  split; [exact Hst|].
  exists (entry_of user body w). repeat split.
  - exact (Hgate Hst).
  - exact Hact.
Qed.

Lemma approval_needs_the_accountant_witness :
  exists exp' e,
    stored_expense
      (serve (ApproveExpense (Some "Bearer token-ann")
                "000000000000000000000011" (approve_ None)) demo_world) 17
    = Some exp' /\
    Expense.approvals exp' = [by_max] ++ [e] /\
    In (Approval.role e) ["Accountant"; "Admin"].
Proof.
  pose (r := ApproveExpense (Some "Bearer token-ann")
               "000000000000000000000011" (approve_ None)).
  assert (H : exists exp',
            stored_expense (serve r demo_world) 17 = Some exp' /\
            Expense.status exp' = "approved").
  { eexists. split; vm_compute; reflexivity. }
  destruct H as (exp' & Hst & Happroved).
  assert (Hbefore : Expense.status (demo_expense 17 "pending_accountant"
                                      [by_max]) <> "approved")
    by discriminate.
  destruct (approval_needs_the_accountant r demo_world 17%N _ exp' eq_refl
              Hst Hbefore Happroved) as (_ & e & Happ & Hrole & _).
  exists exp', e. repeat split; assumption.
Defined.

(** ** The approvals behind a status, in reachable worlds *)

Lemma reachable_serve_all rs w : reachable w -> reachable (serve_all rs w).
Proof.
  revert w. induction rs as [|r rs IH]; intros w Hw; [exact Hw|].
  cbn [serve_all fold_left]. apply IH. now apply reachable_serve.
Qed.

Lemma reachable_office : reachable office.
Proof. apply reachable_serve_all. apply reachable_start. Qed.

Lemma Forall_update_found {D} (P : D -> Prop) (query : D -> bool)
    (update : D -> D) (l : list D) (x : D) :
  Forall P l -> find query l = Some x -> P (update x) ->
  Forall P (update_first query update l).
Proof.
  intros Hl. induction Hl as [|d l Hd Hl IH]; cbn; [discriminate|].
  destruct (query d).
  - intros E Hx. injection E as ->. now constructor.
  - intros E Hx. constructor; [assumption | now apply IH].
Qed.

Lemma log_matches_decided exp user body w :
  log_matches_status exp -> may_decide exp user ->
  log_matches_status (decided exp user body w).
Proof.
  intros Hlog [Hmanager Haccountant].
  unfold log_matches_status, approved_by in *.
  cbn [decided set_status_push_approval Expense.status Expense.approvals
       entry_of Approval.action Approval.role].
  unfold new_status_of.
  destruct (String.eqb (ApproveBody.action body) "reject") eqn:Ea.
  - destruct (Expense.approvals exp) as [|e1 [|e2 rest]]; cbn -[In]; tauto.
  - apply String.eqb_neq in Ea.
    destruct (Expense.approvals exp) as [|e1 [|e2 rest]]; cbn -[In].
    + pose proof (Hmanager Hlog). rewrite Hlog. cbn -[In]. tauto.
    + destruct Hlog as [[Hst H1] | Hst]; [pose proof (Haccountant Hst)|];
        rewrite Hst; cbn -[In]; tauto.
    + destruct Hlog as [[Hst H1] | Hst]; rewrite Hst; cbn -[In]; tauto.
Qed.

(** In every reachable world the approvals of each expense are the ones its
    status calls for. *)
Lemma reachable_log_matches_status w :
  reachable w -> Forall log_matches_status (c_expense (db w)).
Proof.
  induction 1 as [clock uuids oids | r w Hw IH]; [constructor|].
  destruct (serve_expense_effect r w)
    as [-> | payload user _ -> | oid exp user body Hexp Hgate ->].
  - exact IH.
  - apply Forall_app. split; [exact IH|]. now repeat constructor.
  - unfold world_after_decision. cbn [db store coll_expense c_expense].
    apply (Forall_update_found _ _ _ _ exp IH Hexp).
    apply (log_matches_decided exp user body w); [|exact Hgate].
    rewrite Forall_forall in IH. apply IH.
    apply (find_some _ _ Hexp).
Qed.

(** X16.  In every world the server can reach, the status of every expense
    is one of the four workflow states. *)
Theorem reachable_expense_status w exp :
  reachable w ->
  In exp (c_expense (db w)) ->
  In (Expense.status exp) expense_statuses.
Proof.
  intros Hw Hin.
  pose proof (reachable_log_matches_status w Hw) as H.
  rewrite Forall_forall in H. specialize (H exp Hin).
  unfold log_matches_status, expense_statuses in *.
  destruct (Expense.approvals exp) as [|e1 [|e2 rest]];
    [rewrite H | destruct H as [[-> _] | ->] ..]; cbn; tauto.
Qed.

Lemma reachable_expense_status_witness :
  exists exp,
    c_expense (db office) = [exp] /\
    In (Expense.status exp) expense_statuses.
Proof.
  eexists. split; [vm_compute; reflexivity|].
  apply (reachable_expense_status office _ reachable_office).
  vm_compute. left. reflexivity.
Defined.

(** X17.  Two-stage control.  In every reachable world an approved expense
    has at least two approval entries: the first a decision other than
    [reject] by a Manager or an Admin, the second a decision other than
    [reject] by an Accountant or an Admin.  An expense pending at the
    accountant has exactly one entry, of the first kind. *)
Theorem approved_expense_has_both_approvals w exp :
  reachable w ->
  In exp (c_expense (db w)) ->
  (Expense.status exp = "approved" ->
   exists e1 e2 rest,
     Expense.approvals exp = e1 :: e2 :: rest /\
     Approval.action e1 <> "reject" /\
     In (Approval.role e1) ["Manager"; "Admin"] /\
     Approval.action e2 <> "reject" /\
     In (Approval.role e2) ["Accountant"; "Admin"]) /\
  (Expense.status exp = "pending_accountant" ->
   exists e1,
     Expense.approvals exp = [e1] /\
     Approval.action e1 <> "reject" /\
     In (Approval.role e1) ["Manager"; "Admin"]).
Proof.
  intros Hw Hin.
  pose proof (reachable_log_matches_status w Hw) as H.
  rewrite Forall_forall in H. specialize (H exp Hin).
  unfold log_matches_status, approved_by in H.
  destruct (Expense.approvals exp) as [|e1 [|e2 rest]]; split; intros Hst;
    rewrite Hst in H;
    try discriminate H;
    try (destruct H as [[H _] | H]; discriminate H).
  - destruct H as [(_ & H1 & H2) | H]; [|discriminate H].
    exists e1. tauto.
  - destruct H as [(_ & H1 & H2) | H]; [|discriminate H].
    exists e1, e2, rest. tauto.
Qed.

Lemma office_expense :
  exists exp,
    c_expense (db office) = [exp] /\
    Expense.status exp = "approved" /\
    List.length (Expense.approvals exp) = 2 /\
    option_map Approval.role (nth_error (Expense.approvals exp) 0)
    = Some "Manager" /\
    option_map Approval.role (nth_error (Expense.approvals exp) 1)
    = Some "Accountant".
Proof.
  eexists. split; [vm_compute; reflexivity|]. repeat split.
Qed.

Lemma approved_expense_has_both_approvals_witness :
  exists exp e1 e2,
    c_expense (db office) = [exp] /\
    Expense.status exp = "approved" /\
    Expense.approvals exp = [e1; e2] /\
    Approval.role e1 = "Manager" /\ Approval.role e2 = "Accountant".
Proof.
  destruct office_expense as (exp & Hcoll & Hst & Hlen & Hr1 & Hr2).
  assert (Hin : In exp (c_expense (db office))).
  { rewrite Hcoll. left. reflexivity. }
  destruct (proj1 (approved_expense_has_both_approvals office exp
                     reachable_office Hin) Hst)
    as (e1 & e2 & rest & Happ & _).
  rewrite Happ in Hlen, Hr1, Hr2. destruct rest; [|discriminate Hlen].
  cbn in Hr1, Hr2. injection Hr1 as Hr1. injection Hr2 as Hr2.
  exists exp, e1, e2.
  split; [exact Hcoll|]. split; [exact Hst|]. split; [exact Happ|].
  split; [exact Hr1 | exact Hr2].
Defined.

(** X18.  In every reachable world an expense has no approval entry if and
    only if it is still [pending_manager]: each decision that moves or
    rejects an expense is on its record. *)
Theorem no_approvals_iff_pending_manager w exp :
  reachable w ->
  In exp (c_expense (db w)) ->
  (Expense.approvals exp = [] <-> Expense.status exp = "pending_manager").
Proof.
  intros Hw Hin.
  pose proof (reachable_log_matches_status w Hw) as H.
  rewrite Forall_forall in H. specialize (H exp Hin).
  unfold log_matches_status in H.
  destruct (Expense.approvals exp) as [|e1 [|e2 rest]].
  - tauto.
  - split; [discriminate|].
    intros Hst. rewrite Hst in H. destruct H as [[H _] | H]; discriminate H.
  - split; [discriminate|].
    intros Hst. rewrite Hst in H. destruct H as [[H _] | H]; discriminate H.
Qed.

Lemma no_approvals_iff_pending_manager_witness :
  exists exp,
    c_expense (db office) = [exp] /\
    Expense.status exp <> "pending_manager" /\
    Expense.approvals exp <> [].
Proof.
  destruct office_expense as (exp & Hcoll & Hst & _).
  assert (Hnot : Expense.status exp <> "pending_manager").
  { rewrite Hst. discriminate. }
  exists exp. split; [exact Hcoll|]. split; [exact Hnot|].
  intros Hnone. apply Hnot.
  apply (no_approvals_iff_pending_manager office exp reachable_office);
    [rewrite Hcoll; left; reflexivity | exact Hnone].
Defined.

(** ** A decision touches one expense *)

Lemma preserves_approve_expense {X} (f : Database -> X) expense_id body user :
  (forall l d, f (store coll_expense l d) = f d) ->
  preserves f (approve_expense expense_id body user).
Proof.
  intros Hf. unfold approve_expense.
  repeat first
    [ apply preserves_ret | apply preserves_raise | apply preserves_now
    | apply preserves_ObjectId | apply preserves_find_one
    | apply preserves_update_one; exact Hf
    | apply preserves_bind; [|intro]
    | match goal with
      | |- preserves _ (match ?x with _ => _ end) => destruct x
      end ].
Qed.

(** X19.  Whatever its outcome, a call of [approve_expense] leaves the
    users, the sessions and the leaves as they were, neither adds nor
    removes an expense, and leaves every expense other than the one its id
    names exactly as it was. *)
Theorem decision_touches_one_expense w expense_id body user :
  c_user (db (fst (approve_expense expense_id body user w)))
  = c_user (db w) /\
  c_session (db (fst (approve_expense expense_id body user w)))
  = c_session (db w) /\
  c_leave (db (fst (approve_expense expense_id body user w)))
  = c_leave (db w) /\
  List.length (c_expense (db (fst (approve_expense expense_id body user w))))
  = List.length (c_expense (db w)) /\
  (forall other,
     parse_ObjectId expense_id <> Some other ->
     stored_expense (fst (approve_expense expense_id body user w)) other
     = stored_expense w other).
Proof.
  split; [now apply preserves_approve_expense|].
  split; [now apply preserves_approve_expense|].
  split; [now apply preserves_approve_expense|].
  destruct (parse_ObjectId expense_id) as [oid|] eqn:Hid.
  - destruct (stored_expense w oid) as [exp|] eqn:Hexp.
    + run_decision Hid Hexp.
      destruct (_ && _); [split; reflexivity|].
      destruct (_ && _); [split; reflexivity|].
      cbn [fst]. unfold world_after_decision, stored_expense.
      cbn [db store coll_expense c_expense]. split.
      * apply length_update_first.
      * intros other Hne. apply find_update_first_other; [reflexivity|].
        intros d Hd. unfold by_id in *.
        apply N.eqb_eq in Hd. apply N.eqb_neq. congruence.
    + rewrite (approve_expense_not_found _ body user _ _ Hid Hexp).
      split; reflexivity.
  - rewrite approve_expense_unparsed by exact Hid. split; reflexivity.
Qed.

(** ** Create, then decide *)

(** X20.  The id [POST /expenses] returns is the id the approve handler
    resolves: a Manager or an Admin who approves with it gets back the very
    expense that was created, now [pending_accountant] with one approval.
    (The new ObjectId is a 12-byte value that is not taken.) *)
Theorem create_then_approve w authorization user payload approver body :
  get_current_user authorization w = (w, Return user) ->
  In (CurrentUser.role user) ["Engineer"; "Manager"; "Admin"] ->
  oid_fresh coll_expense w ->
  (peek (oids w) < 2 ^ 96)%N ->
  In (CurrentUser.role approver) ["Manager"; "Admin"] ->
  ApproveBody.action body = "approve" ->
  exists w1 created w2 out,
    POST_expenses authorization payload w = (w1, Return created) /\
    approve_expense (ExpenseOut.id created) body approver w1
    = (w2, Return out) /\
    ExpenseOut.id out = ExpenseOut.id created /\
    ExpenseOut.project_id out = ExpenseIn.project_id payload /\
    ExpenseOut.amount out = ExpenseIn.amount payload /\
    ExpenseOut.requested_by out = CurrentUser._id user /\
    ExpenseOut.status out = "pending_accountant" /\
    ExpenseOut.approvals out
    = [Approval.mk (CurrentUser._id approver) (CurrentUser.role approver)
         "approve" (ApproveBody.note body) (peek (clock w1))].
Proof.
  intros Huser Hrole Hfresh Hbytes Happrover Haction.
  set (w1 := world_after_create payload user w).
  set (exp := new_expense payload user w).
  assert (Hstored : stored_expense w1 (peek (oids w)) = Some exp).
  { unfold stored_expense, w1, world_after_create.
    cbn [db store coll_expense c_expense].
    rewrite find_app_none by exact Hfresh.
    cbn. unfold by_id. cbn. now rewrite N.eqb_refl. }
  exists w1, (expense_out exp),
         (world_after_decision (peek (oids w)) exp approver body w1),
         (expense_out (decided exp approver body w1)).
  split.
  { unfold POST_expenses, bind.
    rewrite (require_roles_run _ _ _ _ Huser Hrole).
    now apply create_expense_run. }
  split.
  { cbn [expense_out ExpenseOut.id exp new_expense Expense._id].
    rewrite (approve_expense_run _ body approver w1 _ exp
               (parse_str_ObjectId _ Hbytes) Hstored).
    apply mem_In in Happrover.
    cbn [exp new_expense Expense.status]. now rewrite Happrover. }
  unfold decided, new_status_of, entry_of. rewrite Haction.
  cbn. repeat split.
Qed.

Lemma create_then_approve_witness :
  exists w1 created w2 out,
    POST_expenses (Some "Bearer token-eve")
      (ExpenseIn.mk "P7" 250.5%float "EUR" (Some "scaffolding")) demo_world
    = (w1, Return created) /\
    ExpenseOut.id created = "000000000000000000000100" /\
    approve_expense (ExpenseOut.id created) (approve_ None) max w1
    = (w2, Return out) /\
    ExpenseOut.status out = "pending_accountant".
Proof.
  destruct (create_then_approve demo_world (Some "Bearer token-eve") eve
              (ExpenseIn.mk "P7" 250.5%float "EUR" (Some "scaffolding"))
              max (approve_ None)
              eq_refl (or_introl eq_refl) eq_refl eq_refl
              (or_introl eq_refl) eq_refl)
    as (w1 & created & w2 & out & Hcreate & Hdecide & _ & _ & _ & _ & Hst & _).
  exists w1, created, w2, out.
  split; [exact Hcreate|]. split; [|split; [exact Hdecide | exact Hst]].
  pose proof Hcreate as H. vm_compute in H.
  injection H as _ <-. reflexivity.
Defined.

(** ** Decisions on a leave, refused *)

(** X21.  [POST /leaves/{id}/approve] checks the role first: a user who is
    neither Manager nor Admin gets 403 whatever the id, even one that is no
    ObjectId.  A Manager or an Admin gets 404 for a well-formed id that
    resolves to no leave.  Neither refusal writes anything. *)
Theorem leave_decision_refusals w authorization user leave_id body :
  get_current_user authorization w = (w, Return user) ->
  (~ In (CurrentUser.role user) ["Manager"; "Admin"] ->
   POST_leaves_approve authorization leave_id body w
   = (w, Raise (HTTPException 403 "Forbidden"))) /\
  (In (CurrentUser.role user) ["Manager"; "Admin"] ->
   forall oid,
     parse_ObjectId leave_id = Some oid ->
     stored_leave w oid = None ->
     POST_leaves_approve authorization leave_id body w
     = (w, Raise (HTTPException 404 "Leave not found"))).
Proof.
  intros Huser. split.
  - intros Hrole. unfold POST_leaves_approve, bind.
    now rewrite (require_roles_refuses _ _ _ _ Huser Hrole).
  - intros Hrole oid Hid Hnone. unfold POST_leaves_approve, bind.
    rewrite (require_roles_run _ _ _ _ Huser Hrole).
    unfold stored_leave in Hnone.
    unfold approve_leave, ObjectId, bind. rewrite Hid.
    unfold ret, find_one. cbn [docs coll_leave]. now rewrite Hnone.
Qed.

Lemma leave_decision_refusals_witness :
  POST_leaves_approve (Some "Bearer token-ann") "not-an-id" (approve_ None)
    demo_world
  = (demo_world, Raise (HTTPException 403 "Forbidden")) /\
  POST_leaves_approve (Some "Bearer token-max") "0000000000000000000000aa"
    (approve_ None) demo_world
  = (demo_world, Raise (HTTPException 404 "Leave not found")).
Proof.
  split.
  - apply (proj1 (leave_decision_refusals demo_world
                    (Some "Bearer token-ann") ann "not-an-id" (approve_ None)
                    eq_refl)).
    cbn. intros [H | [H | []]]; discriminate H.
  - exact (proj2 (leave_decision_refusals demo_world
                    (Some "Bearer token-max") max "0000000000000000000000aa"
                    (approve_ None) eq_refl)
             (or_introl eq_refl) 170%N eq_refl eq_refl).
Defined.

(** ** Users and sessions under arbitrary requests *)

(** A request leaves the users as they were or appends one, whose role is
    one of [ALLOWED_ROLES]. *)
Lemma serve_users r w :
  c_user (db (serve r w)) = c_user (db w) \/
  exists body,
    In (RegisterBody.role body) ALLOWED_ROLES /\
    c_user (db (serve r w)) = c_user (db w) ++ [new_user body w].
Proof.
  destruct r; cbn [serve];
    try (left;
         first [ apply keeps_login | apply keeps_logout
               | apply keeps_bind;
                 [ first [apply keeps_get_current_user
                         | apply keeps_require_roles]
                 | intro;
                   first [ apply keeps_create_expense
                         | apply keeps_approve_expense
                         | apply keeps_request_leave
                         | apply keeps_approve_leave
                         | apply keeps_ret ] ] ]).
  unfold register.
  destruct (in_roles_dec (RegisterBody.role body) ALLOWED_ROLES)
    as [[-> Hrole] | [-> _]]; cbn [negb]; [|now left].
  unfold bind, find_one, _now, insert_one.
  cbn [db clock uuids oids docs coll_user].
  destruct (find _ (c_user (db w))); [now left|].
  destruct (existsb _ (c_user (db w))); [now left|].
  right. exists body. split; [exact Hrole | reflexivity].
Qed.

Lemma preserves_session_register body : preserves c_session (register body).
Proof. unfold register. preserving. Qed.

Lemma preserves_session_create_expense payload user :
  preserves c_session (create_expense payload user).
Proof. unfold create_expense. preserving. Qed.

Lemma preserves_session_request_leave payload user :
  preserves c_session (request_leave payload user).
Proof. unfold request_leave. preserving. Qed.

Lemma preserves_session_approve_leave leave_id body user :
  preserves c_session (approve_leave leave_id body user).
Proof. unfold approve_leave. preserving. Qed.

(** A request other than a logout leaves the sessions as they were or
    appends one. *)
Lemma serve_sessions r w :
  (forall a, r <> Logout a) ->
  exists added,
    c_session (db (serve r w)) = c_session (db w) ++ added.
Proof.
  intros Hr.
  assert (Hsame : forall l : list Session.t,
            l = c_session (db w) ->
            exists added, l = c_session (db w) ++ added).
  { intros l ->. exists []. now rewrite app_nil_r. }
  destruct r; cbn [serve].
  - apply Hsame, preserves_session_register.
  - unfold login, bind, find_one. cbn [docs coll_user].
    destruct (find _ (c_user (db w))) as [u|]; [|now apply Hsame].
    destruct (negb _); [now apply Hsame|].
    unfold uuid4, _now, insert_one. cbn [db clock uuids oids docs coll_session].
    destruct (existsb _ (c_session (db w))); [now apply Hsame|].
    eexists. reflexivity.
  - apply Hsame. unfold GET_auth_me.
    apply preserves_bind; [apply preserves_get_current_user|].
    intros a v. reflexivity.
  - apply Hsame. unfold POST_expenses.
    apply preserves_bind; [apply preserves_require_roles|].
    intro. apply preserves_session_create_expense.
  - apply Hsame. unfold POST_expenses_approve.
    apply preserves_bind; [apply preserves_get_current_user|].
    intro. now apply preserves_approve_expense.
  - apply Hsame. unfold POST_leaves.
    apply preserves_bind; [apply preserves_require_roles|].
    intro. apply preserves_session_request_leave.
  - apply Hsame. unfold POST_leaves_approve.
    apply preserves_bind; [apply preserves_require_roles|].
    intro. apply preserves_session_approve_leave.
  - now destruct (Hr authorization).
Qed.

(** What a successful [get_current_user] has found. *)
Lemma get_current_user_found authorization w w' user :
  get_current_user authorization w = (w', Return user) ->
  exists a token session u,
    authorization = Some a /\
    (String.eqb a "" || negb (Str.startswith (Str.lower a) "bearer "))
    = false /\
    nth_error (Str.split_space_1 a) 1 = Some token /\
    find (fun s => String.eqb (Session.token s) token) (c_session (db w))
    = Some session /\
    find (by_id coll_user (Session.user_id session)) (c_user (db w))
    = Some u /\
    user = CurrentUser.mk (str_ObjectId (User._id u)) (User.name u)
             (User.email u) (User.role u).
Proof.
  unfold get_current_user.
  destruct authorization as [a|]; [|discriminate].
  destruct (String.eqb a "" || negb _) eqn:Hscheme; [discriminate|].
  destruct (nth_error (Str.split_space_1 a) 1) as [token|] eqn:Hsplit;
    [|discriminate].
  unfold bind, find_one. cbn [docs coll_session].
  destruct (find _ (c_session (db w))) as [session|] eqn:Hs; [|discriminate].
  cbv beta. cbn [docs coll_user].
  destruct (find _ (c_user (db w))) as [u|] eqn:Hu; [|discriminate].
  intros H. injection H as _ <-.
  exists a, token, session, u. repeat split; assumption.
Qed.

Lemma get_current_user_finds a token session u w :
  (String.eqb a "" || negb (Str.startswith (Str.lower a) "bearer "))
  = false ->
  nth_error (Str.split_space_1 a) 1 = Some token ->
  find (fun s => String.eqb (Session.token s) token) (c_session (db w))
  = Some session ->
  find (by_id coll_user (Session.user_id session)) (c_user (db w)) = Some u ->
  get_current_user (Some a) w
  = (w, Return (CurrentUser.mk (str_ObjectId (User._id u)) (User.name u)
                  (User.email u) (User.role u))).
Proof.
  intros Hscheme Hsplit Hs Hu.
  unfold get_current_user. rewrite Hscheme, Hsplit.
  unfold bind, find_one. cbn [docs coll_session]. rewrite Hs.
  cbv beta. cbn [docs coll_user]. now rewrite Hu.
Qed.

(** X22.  A session does not expire: a header that authenticates a user
    keeps authenticating the same user, with the same name, email and role,
    after any sequence of requests in which nobody logs out. *)
Theorem session_outlives_requests rs w authorization user :
  Forall (fun r => forall a, r <> Logout a) rs ->
  get_current_user authorization w = (w, Return user) ->
  get_current_user authorization (serve_all rs w)
  = (serve_all rs w, Return user).
Proof.
  intros Hrs. revert w. induction Hrs as [|r rs Hr _ IH]; intros w Huser;
    [exact Huser|].
  cbn [serve_all fold_left]. apply IH.
  destruct (get_current_user_found _ _ _ _ Huser)
    as (a & token & session & u & -> & Hscheme & Hsplit & Hs & Hu & ->).
  apply (get_current_user_finds a token session u); try assumption.
  - destruct (serve_sessions r w Hr) as (added & ->).
    now apply find_app_some.
  - destruct (serve_users r w) as [-> | (body & _ & ->)];
      [assumption | now apply find_app_some].
Qed.

Lemma session_outlives_requests_witness :
  get_current_user (Some "Bearer token-max")
    (serve_all
       [ Login (LoginBody.mk "max@intrack.io" "manager-pw");
         Register (RegisterBody.mk "Bob" "bob@intrack.io" "bob-pw" "Manager");
         ApproveExpense (Some "Bearer token-max") "000000000000000000000010"
           (approve_ None) ] demo_world)
  = (serve_all
       [ Login (LoginBody.mk "max@intrack.io" "manager-pw");
         Register (RegisterBody.mk "Bob" "bob@intrack.io" "bob-pw" "Manager");
         ApproveExpense (Some "Bearer token-max") "000000000000000000000010"
           (approve_ None) ] demo_world,
     Return max).
Proof.
  apply (session_outlives_requests _ demo_world (Some "Bearer token-max") max).
  - repeat constructor; discriminate.
  - reflexivity.
Defined.

(** ** Roles of stored users *)

(** In every reachable world the role of every user is one of
    [ALLOWED_ROLES]. *)
Lemma reachable_user_roles w :
  reachable w ->
  Forall (fun u => In (User.role u) ALLOWED_ROLES) (c_user (db w)).
Proof.
  induction 1 as [clock uuids oids | r w Hw IH]; [constructor|].
  destruct (serve_users r w) as [-> | (body & Hrole & ->)]; [exact IH|].
  apply Forall_app. split; [exact IH|].
  constructor; [exact Hrole | constructor].
Qed.

Lemma request_leave_run payload user w :
  oid_fresh coll_leave w ->
  request_leave payload user w
  = (mkWorld
       (store coll_leave
          (c_leave (db w)
           ++ [Leave.mk (peek (oids w)) (LeaveIn.start_date payload)
                 (LeaveIn.end_date payload) (LeaveIn.reason payload)
                 "pending_manager" (CurrentUser._id user) (peek (clock w))
                 (peek (advance (clock w)))])
          (db w))
       (advance (advance (clock w))) (uuids w) (advance (oids w)),
     Return (LeaveOut.mk (str_ObjectId (peek (oids w)))
               (LeaveIn.start_date payload) (LeaveIn.end_date payload)
               (LeaveIn.reason payload) "pending_manager"
               (CurrentUser._id user))).
Proof.
  intros Hfresh. unfold request_leave, bind, _now.
  rewrite insert_one_fresh by exact Hfresh.
  reflexivity.
Qed.

(** X23.  In every reachable world, whoever is authenticated may request a
    leave: [POST /leaves] never answers 403, because [register] admits no
    role outside the four the endpoint lists.  The leave is stored
    [pending_manager] under the requester's id.  (The new ObjectId is not
    taken.) *)
Theorem every_user_may_request_leave w authorization user payload :
  reachable w ->
  get_current_user authorization w = (w, Return user) ->
  oid_fresh coll_leave w ->
  exists w' out leave,
    POST_leaves authorization payload w = (w', Return out) /\
    LeaveOut.status out = "pending_manager" /\
    LeaveOut.user_id out = CurrentUser._id user /\
    c_leave (db w') = c_leave (db w) ++ [leave] /\
    Leave.status leave = "pending_manager" /\
    Leave.user_id leave = CurrentUser._id user /\
    LeaveOut.id out = str_ObjectId (Leave._id leave).
Proof.
  intros Hw Huser Hfresh.
  assert (Hrole : In (CurrentUser.role user)
                    ["Engineer"; "Manager"; "Admin"; "Accountant"]).
  { destruct (get_current_user_found _ _ _ _ Huser)
      as (a & token & session & u & _ & _ & _ & _ & Hu & ->).
    pose proof (reachable_user_roles w Hw) as Hroles.
    rewrite Forall_forall in Hroles.
    specialize (Hroles u (proj1 (find_some _ _ Hu))).
    cbn in *. tauto. }
  pose proof (request_leave_run payload user w Hfresh) as Hrun.
  eexists. eexists. eexists.
  split.
  { unfold POST_leaves, bind.
    rewrite (require_roles_run _ _ _ _ Huser Hrole).
    exact Hrun. }
  cbn. repeat split.
Qed.

Lemma every_user_may_request_leave_witness :
  exists user w' out,
    get_current_user (Some "Bearer tok-3") office = (office, Return user) /\
    CurrentUser.role user = "Accountant" /\
    POST_leaves (Some "Bearer tok-3")
      (LeaveIn.mk "2024-09-02" "2024-09-06" None) office
    = (w', Return out) /\
    LeaveOut.status out = "pending_manager".
Proof.
  assert (Huser : exists user,
            get_current_user (Some "Bearer tok-3") office
            = (office, Return user) /\
            CurrentUser.role user = "Accountant").
  { eexists. split; [vm_compute; reflexivity | reflexivity]. }
  destruct Huser as (user & Huser & Hrole).
  assert (Hfresh : oid_fresh coll_leave office).
  { vm_compute. reflexivity. }
  destruct (every_user_may_request_leave office (Some "Bearer tok-3") user
              (LeaveIn.mk "2024-09-02" "2024-09-06" None)
              reachable_office Huser Hfresh)
    as (w' & out & leave & Hrun & Hst & _).
  exists user, w', out.
  split; [exact Huser|]. split; [exact Hrole|].
  split; [exact Hrun | exact Hst].
Defined.

Lemma reachable_users_wf_witness :
  users_wf (db office) /\ List.length (c_user (db office)) = 3.
Proof.
  split; [exact (reachable_users_wf office reachable_office)|].
  vm_compute. reflexivity.
Defined.

(** ** Projects and their numbers *)

Lemma site_eta s : mkSite (world s) (c_project s) (c_counter s) = s.
Proof. now destruct s. Qed.

(** A computation that only reads the world, lifted, only reads the site. *)
Lemma lift_reads_only {A} (m : M A) s :
  fst (m (world s)) = world s -> fst (lift m s) = s.
Proof.
  unfold lift. destruct (m (world s)) as [w1 [a|e]]; cbn; intros ->;
    apply site_eta.
Qed.

Lemma lift_run {A} (m : M A) s a :
  m (world s) = (world s, Return a) -> lift m s = (s, Done a).
Proof. unfold lift. intros ->. now rewrite site_eta. Qed.

Lemma lift_raise {A} (m : M A) s e :
  m (world s) = (world s, Raise e) -> lift m s = (s, Failed e).
Proof. unfold lift. intros ->. now rewrite site_eta. Qed.

(** The counter after [_next_project_number]: one more than before, which
    is the number returned; or the server refuses and nothing changes. *)
Lemma next_project_number_run s :
  (exists s1,
     _next_project_number s = (s1, Done (counter_value s + 1)%Z) /\
     counter_value s1 = (counter_value s + 1)%Z /\
     c_project s1 = c_project s /\ world s1 = world s) \/
  _next_project_number s = (s, IntegerOverflow).
Proof.
  unfold _next_project_number, counter_value.
  destruct (find is_project_number (c_counter s)) as [seq|] eqn:Hseq.
  - destruct (Counter.value seq + 1 >? int64_max)%Z; [now right|].
    left. eexists. split; [reflexivity|]. cbn [c_counter c_project world].
    rewrite find_update_first by reflexivity. rewrite Hseq. now cbn.
  - left. eexists. split; [reflexivity|]. cbn [c_counter c_project world].
    rewrite find_app_none by exact Hseq. now cbn.
Qed.

(** What [create_project] does to the projects and the counter. *)
Lemma create_project_effect payload user s :
  (c_project (fst (create_project payload user s)) = c_project s /\
   (counter_value s <= counter_value (fst (create_project payload user s)))%Z)
  \/
  exists p,
    c_project (fst (create_project payload user s)) = c_project s ++ [p] /\
    Project.number p = (counter_value s + 1)%Z /\
    counter_value (fst (create_project payload user s))
    = (counter_value s + 1)%Z.
Proof.
  unfold create_project, bind_site.
  destruct (next_project_number_run s)
    as [(s1 & -> & Hcounter & Hprojects & _) | ->];
    [|left; split; [reflexivity | cbn; lia]].
  unfold lift, _now, insert_project, ret_site.
  cbn [world c_project c_counter db clock uuids oids].
  destruct (existsb _ (c_project s1)).
  - left. cbn [fst c_project]. split; [exact Hprojects|].
    unfold counter_value in *. cbn [c_counter]. lia.
  - right. eexists. cbn [fst c_project]. rewrite Hprojects.
    split; [reflexivity|]. split; [reflexivity|].
    unfold counter_value in *. cbn [c_counter]. exact Hcounter.
Qed.

Lemma StronglySorted_snoc (l : list Z) (n : Z) :
  StronglySorted Z.lt l -> Forall (fun x => (x < n)%Z) l ->
  StronglySorted Z.lt (l ++ [n]).
Proof.
  induction 1 as [|x l Hl IH Hx]; cbn; intros Hn.
  - repeat constructor.
  - inversion Hn as [|? ? Hxn Hln]; subst.
    constructor; [now apply IH|].
    apply Forall_app. split; [exact Hx | now repeat constructor].
Qed.

Lemma StronglySorted_lt_NoDup (l : list Z) :
  StronglySorted Z.lt l -> NoDup l.
Proof.
  induction 1 as [|x l Hl IH Hx]; constructor; [|exact IH].
  intros Hin. rewrite Forall_forall in Hx. specialize (Hx x Hin). lia.
Qed.

Lemma serve_site_numbers_ok r s : numbers_ok s -> numbers_ok (serve_site r s).
Proof.
  intros (Hsorted & Hbound & Hpos). destruct r; cbn [serve_site].
  - now repeat split.
  - unfold POST_projects, bind_site.
    pose proof (lift_reads_only
                  (require_roles ["Admin"; "Manager"] authorization) s
                  (require_roles_reads_only _ _ _)) as Hsame.
    destruct (lift _ s) as [s1 [user|e|]]; cbn in Hsame; subst s1;
      [|now repeat split..].
    unfold numbers_ok.
    destruct (create_project_effect payload user s)
      as [[-> Hle] | (p & -> & Hnumber & ->)].
    + repeat split; [assumption| |lia].
      eapply Forall_impl; [|exact Hbound]. cbn. intros q Hq. lia.
    + rewrite map_app. cbn [map].
      rewrite Forall_forall in Hbound.
      repeat split; [| |lia].
      * apply StronglySorted_snoc; [assumption|].
        apply Forall_forall. intros x Hx. apply in_map_iff in Hx.
        destruct Hx as (q & <- & Hq). specialize (Hbound q Hq). lia.
      * apply Forall_app. split.
        -- apply Forall_forall. intros q Hq. specialize (Hbound q Hq). lia.
        -- repeat constructor; lia.
  - unfold GET_project, bind_site.
    pose proof (lift_reads_only (get_current_user authorization) s
                  (get_current_user_reads_only _ _)) as Hsame.
    destruct (lift _ s) as [s1 [user|e|]]; cbn in Hsame; subst s1;
      [|now repeat split..].
    unfold get_project, bind_site, lift, ObjectId.
    destruct (parse_ObjectId project_id) as [oid|]; cbn;
      [destruct (find _ (c_project s))|]; cbn; now repeat split.
Qed.

Lemma reachable_site_numbers_ok s : reachable_site s -> numbers_ok s.
Proof.
  induction 1 as [clock uuids oids | r s _ IH].
  - repeat split; cbn; try constructor. unfold counter_value. cbn. lia.
  - now apply serve_site_numbers_ok.
Qed.

Lemma reachable_site_all rs s :
  reachable_site s -> reachable_site (serve_site_all rs s).
Proof.
  revert s. induction rs as [|r rs IH]; intros s Hs; [exact Hs|].
  cbn [serve_site_all fold_left]. apply IH. now apply reachable_site_serve.
Qed.

Lemma reachable_studio : reachable_site studio.
Proof. apply reachable_site_all. apply reachable_site_start. Qed.

(** X25.  In every site the server can reach, the numbers of the stored
    projects are positive, strictly increase in the order the projects were
    created, and so are pairwise distinct; none exceeds the counter. *)
Theorem project_numbers_increase s :
  reachable_site s ->
  StronglySorted Z.lt (map Project.number (c_project s)) /\
  NoDup (map Project.number (c_project s)) /\
  Forall (fun p => (1 <= Project.number p <= counter_value s)%Z)
    (c_project s).
Proof.
  intros Hs. destruct (reachable_site_numbers_ok s Hs) as (Hsorted & Hb & _).
  split; [exact Hsorted|]. split; [|exact Hb].
  now apply StronglySorted_lt_NoDup.
Qed.

Lemma project_numbers_increase_witness :
  map Project.number (c_project studio) = [1; 2]%Z /\
  NoDup (map Project.number (c_project studio)).
Proof.
  split; [vm_compute; reflexivity|].
  exact (proj1 (proj2 (project_numbers_increase studio reachable_studio))).
Defined.

(** X26.  [POST /projects] is for Admins and Managers: for any other
    authenticated user it answers 403 and leaves the site as it was, the
    counter included, so a refused call uses up no project number. *)
Theorem create_project_refused s authorization user payload :
  get_current_user authorization (world s) = (world s, Return user) ->
  ~ In (CurrentUser.role user) ["Admin"; "Manager"] ->
  POST_projects authorization payload s
  = (s, Failed (HTTPException 403 "Forbidden")).
Proof.
  intros Huser Hrole. unfold POST_projects, bind_site.
  now rewrite (lift_raise _ s _
                 (require_roles_refuses _ _ _ _ Huser Hrole)).
Qed.

Lemma create_project_refused_witness :
  POST_projects (Some "Bearer token-ann") tower demo_site
  = (demo_site, Failed (HTTPException 403 "Forbidden")).
Proof.
  apply (create_project_refused demo_site (Some "Bearer token-ann") ann tower).
  - reflexivity.
  - cbn. intros [H | [H | []]]; discriminate H.
Defined.

(** X27.  A project created by an Admin or a Manager gets the number after
    the counter's value, and [get_project] with the id returned gives back
    exactly the response of the creation, to any user.  (The counter is
    below the largest 64-bit integer; the new ObjectId is a 12-byte value
    that is not taken.) *)
Theorem create_then_get_project s authorization user payload :
  get_current_user authorization (world s) = (world s, Return user) ->
  In (CurrentUser.role user) ["Admin"; "Manager"] ->
  (counter_value s < int64_max)%Z ->
  find (fun p => N.eqb (Project._id p) (peek (oids (world s))))
    (c_project s) = None ->
  (peek (oids (world s)) < 2 ^ 96)%N ->
  exists s1 created,
    POST_projects authorization payload s = (s1, Done created) /\
    ProjectOut.number created = (counter_value s + 1)%Z /\
    ProjectOut.title created = ProjectIn.title payload /\
    ProjectOut.client created = ProjectIn.client payload /\
    forall reader,
      get_project (ProjectOut.id created) reader s1 = (s1, Done created).
Proof.
  intros Huser Hrole Hcounter Hfresh Hbytes.
  unfold POST_projects, bind_site.
  rewrite (lift_run _ s _ (require_roles_run _ _ _ _ Huser Hrole)).
  unfold create_project, bind_site.
  assert (Hnext : exists s0,
            _next_project_number s = (s0, Done (counter_value s + 1)%Z) /\
            c_project s0 = c_project s /\ world s0 = world s).
  { unfold _next_project_number, counter_value in *.
    destruct (find is_project_number (c_counter s)) as [seq|].
    - destruct (Z.gtb_spec (Counter.value seq + 1) int64_max); [lia|].
      eexists. repeat split.
    - eexists. repeat split. }
  destruct Hnext as (s0 & -> & Hprojects & Hworld).
  unfold lift, _now, insert_project, ret_site.
  cbn [world c_project c_counter db clock uuids oids].
  rewrite Hprojects, Hworld.
  rewrite (find_none_existsb_false _ _ Hfresh).
  eexists. eexists. split; [reflexivity|].
  cbn [ProjectOut.number ProjectOut.title ProjectOut.client ProjectOut.id].
  repeat split.
  intros reader. unfold get_project, bind_site, lift, ObjectId.
  rewrite (parse_str_ObjectId _ Hbytes).
  cbn [ret world c_project c_counter].
  rewrite find_app_none by exact Hfresh.
  cbn. now rewrite N.eqb_refl.
Qed.

Lemma create_then_get_project_witness :
  exists s1 created,
    POST_projects (Some "Bearer token-ada") tower demo_site
    = (s1, Done created) /\
    ProjectOut.number created = 1%Z /\
    get_project (ProjectOut.id created) eve s1 = (s1, Done created).
Proof.
  destruct (create_then_get_project demo_site (Some "Bearer token-ada") ada
              tower eq_refl (or_introl eq_refl) eq_refl eq_refl eq_refl)
    as (s1 & created & Hcreate & Hnumber & _ & _ & Hget).
  exists s1, created.
  split; [exact Hcreate|]. split; [exact Hnumber | exact (Hget eve)].
Defined.

(** ** An expense id that is no ObjectId *)

Lemma length_str_ObjectId o : String.length (str_ObjectId o) = 24.
Proof. apply length_to_hex. Qed.

(** C7.  The 404 of the claim is not what the endpoint answers to every id
    that does not resolve.  An id that is not 24 characters long is the
    text of no ObjectId, hence the id of no stored expense; on it
    [ObjectId(expense_id)] raises [InvalidId] before the lookup, nothing in
    the handler catches that, and the call ends with that exception in
    place of the 404 "Expense not found".  Nothing is written. *)
Theorem approve_expense_malformed_id w authorization user expense_id body :
  get_current_user authorization w = (w, Return user) ->
  String.length expense_id <> 24 ->
  (forall exp,
     In exp (c_expense (db w)) ->
     str_ObjectId (Expense._id exp) <> expense_id) /\
  POST_expenses_approve authorization expense_id body w
  = (w, Raise InvalidId) /\
  POST_expenses_approve authorization expense_id body w
  <> (w, Raise (HTTPException 404 "Expense not found")).
Proof.
  intros Huser Hlen.
  assert (Hrun : POST_expenses_approve authorization expense_id body w
                 = (w, Raise InvalidId)).
  { unfold POST_expenses_approve, bind. rewrite Huser.
    now apply approve_expense_invalid_id. }
  split; [|split].
  - intros exp _ E. apply Hlen. rewrite <- E. apply length_str_ObjectId.
  - exact Hrun.
  - rewrite Hrun. discriminate.
Qed.

Lemma approve_expense_malformed_id_witness :
  get_current_user (Some "Bearer token-ada") demo_world
  = (demo_world, Return ada) /\
  POST_expenses_approve (Some "Bearer token-ada") "not-an-id" (approve_ None)
    demo_world
  = (demo_world, Raise InvalidId).
Proof.
  split; [reflexivity|].
  refine (proj1 (proj2 (approve_expense_malformed_id demo_world
                          (Some "Bearer token-ada") ada "not-an-id"
                          (approve_ None) eq_refl _))).
  discriminate.
Defined.

(** Of three sessions with one token, [logout] removes the first. *)
Example logout_removes_the_first_of_three :
  c_session
    (db (fst (logout (Some "Bearer shared")
                (set_db
                   (mkDatabase [] [Session.mk 1 "shared" 9 t0;
                                   Session.mk 2 "shared" 9 t0;
                                   Session.mk 3 "shared" 9 t0] [] [])
                   demo_world))))
  = [Session.mk 2 "shared" 9 t0; Session.mk 3 "shared" 9 t0].
Proof. reflexivity. Qed.
